(** * DWD pollen sensor: a shallow embedding of [sensor.py]

    The development follows the source file from top to bottom: the Python
    values that [response.json()] can return, the exceptions the code raises
    and catches, the fetcher [DwdPollenApi.get_exposure], the three static
    helpers of [DwdPollenSensor] and finally [update], written in a small
    state-and-exception monad because the source mutates [self] and the local
    dictionary [exposure] step by step inside a [try] block. *)

From Stdlib Require Import ZArith Lia Ascii String DecimalString.
From Stdlib Require Import Floats.SpecFloat.
From stdpp Require Import base gmap strings list.

Local Open Scope string_scope.
Local Open Scope Z_scope.
Local Open Scope list_scope.

Set Warnings "-register-all".

(** ** Exceptions and fallible computations *)

(** The exception classes that occur in the source or in the library calls it
    makes.  [RequestException] stands for the whole class hierarchy below
    [requests.exceptions.RequestException] (connection errors, timeouts,
    [HTTPError]); [ValueError] includes [json.JSONDecodeError]. *)
Inductive exn : Set :=
| KeyError
| TypeError
| ValueError
| OverflowError
| RequestException.

(** The result of evaluating a Python expression: a value, or a raised
    exception. *)
Inductive outcome (A : Type) : Type :=
| Return (a : A)
| Raise (e : exn).

Arguments Return {A} a.
Arguments Raise {A} e.

#[global] Instance outcome_ret : MRet outcome := fun A a => Return a.

#[global] Instance outcome_bind : MBind outcome := fun A B k m =>
  match m with
  | Return a => k a
  | Raise e => Raise e
  end.

(** ** Python values *)

(** What [response.json()] returns: [None], a bool, an int, a float, a str, a
    list or a dict with string keys.  A dict is kept as an association list
    in which the first binding of a key is the one the dict holds. *)
Inductive jsonval : Type :=
| JNull
| JBool (b : bool)
| JInt (z : Z)
| JFloat (f : spec_float)
| JStr (s : string)
| JList (l : list jsonval)
| JDict (d : list (string * jsonval)).

(** [d.get(key, default)] on a dict literal of the source. *)
Fixpoint dict_get {K V : Type} `{EqDecision K} (d : list (K * V)) (key : K) (default : V) : V :=
  match d with
  | [] => default
  | (k, v) :: rest => if decide (k = key) then v else dict_get rest key default
  end.

(** The binding of [key] in a dict, if any. *)
Fixpoint dict_find {V : Type} (d : list (string * V)) (key : string) : option V :=
  match d with
  | [] => None
  | (k, v) :: rest => if decide (k = key) then Some v else dict_find rest key
  end.

(** [bool(v)], as taken by [if result:]. *)
Definition truthy (v : jsonval) : bool :=
  match v with
  | JNull => false
  | JBool b => b
  | JInt z => negb (z =? 0)
  | JFloat (S754_zero _) => false
  | JFloat _ => true
  | JStr s => negb (bool_decide (s = ""))
  | JList l => negb (bool_decide (l = []))
  | JDict d => negb (bool_decide (d = []))
  end.

(** [v[key]] with a string key: only a dict can be indexed by a string. A
    missing key raises [KeyError]; indexing [None], a number, a str or a list
    with a str raises [TypeError]. *)
Definition subscript (v : jsonval) (key : string) : outcome jsonval :=
  match v with
  | JDict d =>
      match dict_find d key with
      | Some x => Return x
      | None => Raise KeyError
      end
  | _ => Raise TypeError
  end.

(** [for x in v]: the elements of a list, the characters of a str, the keys
    of a dict; anything else is not iterable. *)
Definition py_iter (v : jsonval) : outcome (list jsonval) :=
  match v with
  | JList l => Return l
  | JStr s => Return (map (fun c => JStr (String c EmptyString)) (list_ascii_of_string s))
  | JDict d => Return (map JStr (remove_dups (map fst d)))
  | _ => Raise TypeError
  end.

(** ** Floats: binary64 with round-to-nearest-even *)

Definition float_of_int (z : Z) : spec_float := binary_normalize 53 1024 z 0 false.

(** [a / b] on ints whose magnitude is below 2^53, which both convert
    exactly. *)
Definition int_truediv (a b : Z) : spec_float :=
  SFdiv 53 1024 (float_of_int a) (float_of_int b).

(** [x * n] for a float [x] and an int [n]. *)
Definition float_mul_int (x : spec_float) (n : Z) : spec_float :=
  SFmul 53 1024 x (float_of_int n).

(** The integer nearest to [m / d], ties going to the even one. *)
Definition round_half_even (m d : Z) : Z :=
  let q := m / d in
  match 2 * (m mod d) ?= d with
  | Lt => q
  | Gt => q + 1
  | Eq => if Z.even q then q else q + 1
  end.

(** [round(x)] for a float [x]: an int, or an exception on infinities and
    NaN. *)
Definition py_round (x : spec_float) : outcome Z :=
  match x with
  | S754_zero _ => Return 0
  | S754_infinity _ => Raise OverflowError
  | S754_nan => Raise ValueError
  | S754_finite s m e =>
      let n := if 0 <=? e then Z.pos m * 2 ^ e else round_half_even (Z.pos m) (2 ^ (- e)) in
      Return (if s then - n else n)
  end.

(** [x == n] for a float [x] and an int [n]: exact comparison of the two
    numbers. *)
Definition float_eq_int (x : spec_float) (n : Z) : bool :=
  match x with
  | S754_zero _ => n =? 0
  | S754_finite s m e =>
      let v := if s then Z.neg m else Z.pos m in
      if 0 <=? e then v * 2 ^ e =? n else v =? n * 2 ^ (- e)
  | _ => false
  end.

(** [v == n] for an int [n]: numbers compare by value ([True] is 1 and
    [False] is 0), everything else is different from an int. *)
Definition py_eq_int (v : jsonval) (n : Z) : bool :=
  match v with
  | JInt z => z =? n
  | JBool b => (if b then 1 else 0) =? n
  | JFloat f => float_eq_int f n
  | _ => false
  end.

(** [max(l, default=d)]. *)
Definition py_max (l : list Z) (default : Z) : Z :=
  match l with
  | [] => default
  | x :: rest => fold_left Z.max rest x
  end.

(** ** Dates and times *)

(** A [datetime]: its date as the proleptic Gregorian ordinal
    ([toordinal()], day 1 is 0001-01-01) and its time of day. *)
Record datetime : Set := {
  ordinal : Z;
  hour : Z;
  minute : Z;
  second : Z;
  microsecond : Z
}.

(** [d.date()]; two dates are equal exactly when their ordinals are. *)
Definition date (d : datetime) : Z := ordinal d.

(** The ordinal of 9999-12-31, the last date a [datetime] can hold. *)
Definition MAXORDINAL : Z := 3652059.

(** [d - timedelta(days=n)]: the time of day is kept; leaving the range of
    [datetime] raises [OverflowError]. *)
Definition sub_days (d : datetime) (n : Z) : outcome datetime :=
  let o := ordinal d - n in
  if (1 <=? o) && (o <=? MAXORDINAL) then
    Return {| ordinal := o; hour := hour d; minute := minute d;
              second := second d; microsecond := microsecond d |}
  else Raise OverflowError.

(** *** A parser for the timestamps of the feed

    [datetime.strptime] belongs to the Python library; the sensor is
    parametrised by it below.  [strptime_feed] is the library function on the
    zero-padded timestamps the feed carries, ["YYYY-MM-DD HH:MM Uhr"]; it
    rejects every other spelling and every other format. *)

Definition is_leap (y : Z) : bool :=
  (y mod 4 =? 0) && (negb (y mod 100 =? 0) || (y mod 400 =? 0)).

Definition days_before_year (y : Z) : Z :=
  let p := y - 1 in p * 365 + p / 4 - p / 100 + p / 400.

Definition days_in_month (y m : Z) : Z :=
  if m =? 2 then (if is_leap y then 29 else 28)
  else if (m =? 4) || (m =? 6) || (m =? 9) || (m =? 11) then 30
  else 31.

Fixpoint days_before_month_from (y : Z) (months : nat) (m : Z) : Z :=
  match months with
  | O => 0
  | S k => days_before_month_from y k (m - 1) + days_in_month y (m - 1)
  end.

Definition ymd2ord (y m d : Z) : Z :=
  days_before_year y + days_before_month_from y (Z.to_nat (m - 1)) m + d.

Definition digit (c : ascii) : option Z :=
  let n := Z.of_N (N_of_ascii c) in
  if (48 <=? n) && (n <=? 57) then Some (n - 48) else None.

Fixpoint digits (cs : list ascii) (acc : Z) : option Z :=
  match cs with
  | [] => Some acc
  | c :: rest =>
      match digit c with
      | Some n => digits rest (acc * 10 + n)
      | None => None
      end
  end.

Definition number (s : string) (start len : nat) : option Z :=
  digits (list_ascii_of_string (substring start len s)) 0.

Definition FEED_FORMAT : string := "%Y-%m-%d %H:%M Uhr".

Definition strptime_feed (s format : string) : option datetime :=
  if negb (bool_decide (format = FEED_FORMAT)) then None
  else if negb (bool_decide (String.length s = 20%nat)) then None
  else if negb (bool_decide (substring 4 1 s = "-" /\ substring 7 1 s = "-"
                             /\ substring 10 1 s = " " /\ substring 13 1 s = ":"
                             /\ substring 16 4 s = " Uhr")) then None
  else
    match number s 0 4, number s 5 2, number s 8 2, number s 11 2, number s 14 2 with
    | Some y, Some m, Some d, Some h, Some mi =>
        if (1 <=? y) && (1 <=? m) && (m <=? 12) && (1 <=? d) && (d <=? days_in_month y m)
           && (h <=? 23) && (mi <=? 59)
        then Some {| ordinal := ymd2ord y m d; hour := h; minute := mi;
                     second := 0; microsecond := 0 |}
        else None
    | _, _, _, _, _ => None
    end.

(** ** Constants of the module *)

Definition ATTR_DESCRIPTION : string := "description".
Definition ATTR_LAST_UPDATE : string := "last_update".
Definition ATTR_NEXT_UPDATE : string := "next_update".
Definition ATTR_PARTREGION_NAME : string := "partregion_name".
Definition ATTR_REGION_NAME : string := "region_name".

Definition ATTRIBUTION : string := "Data provided by Deutscher Wetterdienst".

(** Modelled from the spec: [homeassistant.const.ATTR_ATTRIBUTION], the key
    under which the attribution string is published, is imported from the
    host framework and is not part of the source file; the spec lists the
    attribution string as a sixth attribute beside the five keys above. *)
Definition ATTR_ATTRIBUTION : string := "attribution".

(** ** The sensor and its state monad *)

(** The values held by [self._attributes]: values of the document, strings
    made by the sensor (kept as [JStr]) and parsed timestamps. *)
Inductive pyval : Type :=
| PJ (v : jsonval)
| PD (d : datetime).

(** The fields of a [DwdPollenSensor] that [update] reads or writes. *)
Record sensor : Type := {
  _name : string;
  _partregion_id : Z;
  _pollen_type : string;
  _state : option Z;
  _attributes : gmap string pyval
}.

(** The local dictionary [exposure] of [update].  Its keys are five string
    literals, each bound to values of one type only, so it is kept as a
    record of optional fields: [None] is a key that is not bound (yet). *)
Record exposure_dict : Type := {
  exp_level : option Z;
  exp_last_update : option datetime;
  exp_next_update : option datetime;
  exp_region_name : option jsonval;
  exp_partregion_name : option jsonval
}.

(** [{}] *)
Definition exposure_empty : exposure_dict :=
  {| exp_level := None; exp_last_update := None; exp_next_update := None;
     exp_region_name := None; exp_partregion_name := None |}.

(** Whether a key of [exposure] is bound. *)
Definition bound {A : Type} (o : option A) : bool :=
  match o with
  | Some _ => true
  | None => false
  end.

(** [bool(exposure)]: a dict is true when it has a key. *)
Definition exposure_truthy (e : exposure_dict) : bool :=
  bound (exp_level e) || bound (exp_last_update e) || bound (exp_next_update e)
  || bound (exp_region_name e) || bound (exp_partregion_name e).

(** [exposure[key]]: the value of a bound key, [KeyError] otherwise. *)
Definition exposure_item {A : Type} (field : exposure_dict -> option A) (e : exposure_dict) : outcome A :=
  match field e with
  | Some v => Return v
  | None => Raise KeyError
  end.

(** The four messages the module logs with [_LOGGER.error]. *)
Inductive log_record : Set :=
| ErrorFetching (resource : string) (ex : exn)
| ErrorParsing (resource : string) (ex : exn)
| ErroneousResult (ex : exn)
| EmptyResult.

(** What a run of [update] can change: the sensor, the local [exposure] and
    the log. *)
Record frame : Type := {
  self : sensor;
  exposure : exposure_dict;
  log : list log_record
}.

(** A statement: it transforms the frame and either completes with a value
    or raises; what it changed before raising stays changed. *)
Definition M (A : Type) : Type := frame -> frame * outcome A.

#[global] Instance M_ret : MRet M := fun A a fr => (fr, Return a).

#[global] Instance M_bind : MBind M := fun A B k m fr =>
  match m fr with
  | (fr', Return a) => k a fr'
  | (fr', Raise e) => (fr', Raise e)
  end.

(** Evaluation of an expression that does not touch the frame. *)
Definition lift {A : Type} (o : outcome A) : M A := fun fr => (fr, o).

(** [try: body except ...]: [handlers ex] is the body of the first [except]
    clause that matches [ex], or [None] when no clause does and the
    exception goes on to the caller. *)
Definition try_except {A : Type} (body : M A) (handlers : exn -> option (M A)) : M A := fun fr =>
  match body fr with
  | (fr', Return a) => (fr', Return a)
  | (fr', Raise ex) =>
      match handlers ex with
      | Some handler => handler fr'
      | None => (fr', Raise ex)
      end
  end.

Definition get_self : M sensor := fun fr => (fr, Return (self fr)).

Definition get_local_exposure : M exposure_dict := fun fr => (fr, Return (exposure fr)).

(** [_LOGGER.error(...)] *)
Definition logger_error (r : log_record) : M unit := fun fr =>
  ({| self := self fr; exposure := exposure fr; log := log fr ++ [r] |}, Return tt).

(** [self._state = v] *)
Definition set_state (v : option Z) : M unit := fun fr =>
  let s := self fr in
  ({| self := {| _name := _name s; _partregion_id := _partregion_id s;
                 _pollen_type := _pollen_type s; _state := v;
                 _attributes := _attributes s |};
      exposure := exposure fr; log := log fr |}, Return tt).

(** [self._attributes = a] *)
Definition set_attributes (a : gmap string pyval) : M unit := fun fr =>
  let s := self fr in
  ({| self := {| _name := _name s; _partregion_id := _partregion_id s;
                 _pollen_type := _pollen_type s; _state := _state s;
                 _attributes := a |};
      exposure := exposure fr; log := log fr |}, Return tt).

(** [self._attributes[key] = v] *)
Definition set_attribute (key : string) (v : pyval) : M unit := fun fr =>
  set_attributes (<[key := v]> (_attributes (self fr))) fr.

(** [exposure = e] *)
Definition set_exposure (e : exposure_dict) : M unit := fun fr =>
  ({| self := self fr; exposure := e; log := log fr |}, Return tt).

(** [exposure["level"] = v] and the four other item assignments. *)
Definition set_exposure_level (v : Z) : M unit := fun fr =>
  let e := exposure fr in
  set_exposure {| exp_level := Some v; exp_last_update := exp_last_update e;
                  exp_next_update := exp_next_update e; exp_region_name := exp_region_name e;
                  exp_partregion_name := exp_partregion_name e |} fr.

Definition set_exposure_last_update (v : datetime) : M unit := fun fr =>
  let e := exposure fr in
  set_exposure {| exp_level := exp_level e; exp_last_update := Some v;
                  exp_next_update := exp_next_update e; exp_region_name := exp_region_name e;
                  exp_partregion_name := exp_partregion_name e |} fr.

Definition set_exposure_next_update (v : datetime) : M unit := fun fr =>
  let e := exposure fr in
  set_exposure {| exp_level := exp_level e; exp_last_update := exp_last_update e;
                  exp_next_update := Some v; exp_region_name := exp_region_name e;
                  exp_partregion_name := exp_partregion_name e |} fr.

Definition set_exposure_region_name (v : jsonval) : M unit := fun fr =>
  let e := exposure fr in
  set_exposure {| exp_level := exp_level e; exp_last_update := exp_last_update e;
                  exp_next_update := exp_next_update e; exp_region_name := Some v;
                  exp_partregion_name := exp_partregion_name e |} fr.

Definition set_exposure_partregion_name (v : jsonval) : M unit := fun fr =>
  let e := exposure fr in
  set_exposure {| exp_level := exp_level e; exp_last_update := exp_last_update e;
                  exp_next_update := exp_next_update e; exp_region_name := exp_region_name e;
                  exp_partregion_name := Some v |} fr.

(** ** [DwdPollenApi] *)

(** What the [requests] library answers: [requests.get] returns a response or
    raises, and so do the two methods of the response the source calls. *)
Record response : Type := {
  raise_for_status : outcome unit;
  json : outcome jsonval
}.

Definition RESOURCE : string :=
  "https://opendata.dwd.de/climate_environment/health/alerts/s31fg.json".

(** [DwdPollenApi.get_exposure]; [requests_get] is the outcome of
    [requests.get(resource, verify=True, timeout=10)]. *)
Definition get_exposure (requests_get : outcome response) : M jsonval :=
  let resource := RESOURCE in
  try_except
    (response ← lift requests_get;
     _ ← lift (raise_for_status response);
     lift (json response))
    (fun ex =>
       match ex with
       | RequestException =>
           Some (_ ← logger_error (ErrorFetching resource ex); mret JNull)
       | ValueError =>
           Some (_ ← logger_error (ErrorParsing resource ex); mret JNull)
       | _ => None
       end).

(** ** [DwdPollenSensor]: the static helpers *)

(** The loop of [__find_partregion] over the elements still to visit; falling
    off the end of the function returns [None]. *)
Fixpoint find_partregion_loop (partregions : list jsonval) (partregion_id : Z) : outcome jsonval :=
  match partregions with
  | [] => Return JNull
  | partregion :: rest =>
      id ← subscript partregion "partregion_id";
      if py_eq_int id partregion_id then Return partregion
      else find_partregion_loop rest partregion_id
  end.

(** [DwdPollenSensor.__find_partregion] *)
Definition find_partregion (partregion_list : jsonval) (partregion_id : Z) : outcome jsonval :=
  partregions ← py_iter partregion_list;
  find_partregion_loop partregions partregion_id.

Definition pollen_mapping : list (string * list string) :=
  [ ("ambrosia", ["Ambrosia"]);
    ("grass", ["Graeser"]);
    ("tree", ["Beifuss"; "Birke"; "Erle"; "Esche"; "Hasel"; "Roggen"]) ].

Definition level_mapping : list (string * Z) :=
  [ ("0", 0); ("0-1", 1); ("1", 2); ("1-2", 3); ("2", 4); ("2-3", 5); ("3", 6) ].

(** [level_mapping.get(band, -1)]: the keys are strings, so only a string can
    be found; a list or a dict is not hashable and cannot be looked up. *)
Definition level_mapping_get (band : jsonval) : outcome Z :=
  match band with
  | JStr s => Return (dict_get level_mapping s (-1))
  | JList _ | JDict _ => Raise TypeError
  | _ => Return (-1)
  end.

(** [level_mapping.get(pollen_list[pollen_type][day], -1)], the rank one
    species contributes: both subscripts are evaluated before the lookup. *)
Definition pollen_level (pollen_list : jsonval) (pollen_type day : string) : outcome Z :=
  entry ← subscript pollen_list pollen_type;
  band ← subscript entry day;
  level_mapping_get band.

(** The loop of [__calculate_level]: one rank is appended to [pollen_levels]
    for each constituent species, in order. *)
Fixpoint calculate_level_loop (pollen_list : jsonval) (day : string)
    (pollen_types : list string) (pollen_levels : list Z) : outcome (list Z) :=
  match pollen_types with
  | [] => Return pollen_levels
  | pollen_type :: rest =>
      rank ← pollen_level pollen_list pollen_type day;
      calculate_level_loop pollen_list day rest (pollen_levels ++ [rank])
  end.

(** [DwdPollenSensor.__calculate_level] *)
Definition calculate_level (pollen_list : jsonval) (pollen_category day : string) : outcome Z :=
  pollen_levels ← calculate_level_loop pollen_list day
                    (dict_get pollen_mapping pollen_category []) [];
  Return (py_max pollen_levels (-1)).

Definition description_mapping : list (Z * string) :=
  [ (0, "no level of exposure");
    (1, "no to low level of exposure");
    (2, "low level of exposure");
    (3, "low to medium level of exposure");
    (4, "medium level of exposure");
    (5, "medium to high level exposure");
    (6, "high level of exposure") ].

(** [DwdPollenSensor.__get_description] *)
Definition get_description (level : Z) : string :=
  dict_get description_mapping level "unknown level of exposure".

(** [round(level / 6 * 100)] *)
Definition percentage (level : Z) : outcome Z :=
  py_round (float_mul_int (int_truediv level 6) 100).

(** ** [DwdPollenSensor.update] *)

Section Sensor.

(** [datetime.strptime(s, format)] of the Python library on a string:
    the parsed timestamp, or [None] when the library raises [ValueError]. *)
Variable strptime : string -> string -> option datetime.

(** [datetime.strptime(v, format)] on a value of the document: anything but
    a str is refused with [TypeError]. *)
Definition datetime_strptime (v : jsonval) (format : string) : outcome datetime :=
  match v with
  | JStr s =>
      match strptime s format with
      | Some d => Return d
      | None => Raise ValueError
      end
  | _ => Raise TypeError
  end.

(** [exposure["level"] = self.__calculate_level(partregion["Pollen"],
    self._pollen_type, day)] *)
Definition update_level_for (partregion : jsonval) (day : string) : M unit :=
  pollen ← lift (subscript partregion "Pollen");
  s ← get_self;
  level ← lift (calculate_level pollen (_pollen_type s) day);
  set_exposure_level level.

(** The four assignments that close the [try] block, after the level has
    been stored. *)
Definition update_store (last_update next_update : datetime) (partregion : jsonval) : M unit :=
  _ ← set_exposure_last_update last_update;
  _ ← set_exposure_next_update next_update;
  region_name ← lift (subscript partregion "region_name");
  _ ← set_exposure_region_name region_name;
  partregion_name ← lift (subscript partregion "partregion_name");
  set_exposure_partregion_name partregion_name.

(** The body of the [try] block; [today] is what [datetime.today()]
    returns. *)
Definition update_try (today : datetime) (result : jsonval) : M unit :=
  yesterday ← lift (sub_days today 1);
  before_yesterday ← lift (sub_days yesterday 1);
  raw_last_update ← lift (subscript result "last_update");
  last_update ← lift (datetime_strptime raw_last_update "%Y-%m-%d %H:%M Uhr");
  raw_next_update ← lift (subscript result "next_update");
  next_update ← lift (datetime_strptime raw_next_update "%Y-%m-%d %H:%M Uhr");
  content ← lift (subscript result "content");
  s ← get_self;
  partregion ← lift (find_partregion content (_partregion_id s));
  _ ← (if date last_update =? date today then update_level_for partregion "today"
       else if date last_update =? date yesterday then update_level_for partregion "tomorrow"
       else if date last_update =? date before_yesterday
            then update_level_for partregion "dayafter_to"
       else set_exposure_level (-1));
  update_store last_update next_update partregion.

(** The six assignments to [self._attributes] under [if exposure:]. *)
Definition update_attributes (e : exposure_dict) : M unit :=
  level ← lift (exposure_item exp_level e);
  _ ← set_attribute ATTR_DESCRIPTION (PJ (JStr (get_description level)));
  last_update ← lift (exposure_item exp_last_update e);
  _ ← set_attribute ATTR_LAST_UPDATE (PD last_update);
  next_update ← lift (exposure_item exp_next_update e);
  _ ← set_attribute ATTR_NEXT_UPDATE (PD next_update);
  region_name ← lift (exposure_item exp_region_name e);
  _ ← set_attribute ATTR_REGION_NAME (PJ region_name);
  partregion_name ← lift (exposure_item exp_partregion_name e);
  _ ← set_attribute ATTR_PARTREGION_NAME (PJ partregion_name);
  set_attribute ATTR_ATTRIBUTION (PJ (JStr ATTRIBUTION)).

(** The statements after the [try] block, under [if exposure:]. *)
Definition update_publish : M unit :=
  e ← get_local_exposure;
  if exposure_truthy e then
    level ← lift (exposure_item exp_level e);
    _ ← (if 0 <=? level then
           level ← lift (exposure_item exp_level e);
           p ← lift (percentage level);
           set_state (Some p)
         else mret tt);
    update_attributes e
  else mret tt.

(** The body of [update].  The [Throttle] decorator of the host framework
    decides whether a call runs this body at all; a call it lets through
    runs it unchanged. *)
Definition update (today : datetime) (requests_get : outcome response) : M unit :=
  _ ← set_state None;
  _ ← set_attributes ∅;
  result ← get_exposure requests_get;
  _ ← set_exposure exposure_empty;
  _ ← (if truthy result then
         try_except (update_try today result)
           (fun ex =>
              match ex with
              | KeyError => Some (logger_error (ErroneousResult ex))
              | _ => None
              end)
       else logger_error EmptyResult);
  update_publish.

(** One call of [update] on a sensor: the sensor afterwards, what was logged,
    and whether the call returned or raised. *)
Definition run_update (today : datetime) (requests_get : outcome response) (s : sensor)
  : sensor * list log_record * outcome unit :=
  match update today requests_get {| self := s; exposure := exposure_empty; log := [] |} with
  | (fr, r) => (self fr, log fr, r)
  end.

End Sensor.

(** ** The tables of the specification *)

(** The seven raw bands, in the order the specification lists them. *)
Definition RAW_BANDS : list string := ["0"; "0-1"; "1"; "1-2"; "2"; "2-3"; "3"].





(** The day-key the specification selects for a snapshot that is [offset]
    days old: none when the snapshot is older than two days or lies in the
    future. *)
Definition spec_day_key (offset : Z) : option string :=
  if offset =? 0 then Some "today"
  else if offset =? 1 then Some "tomorrow"
  else if offset =? 2 then Some "dayafter_to"
  else None.

(** The sensor with its reading erased, as [update] leaves it before it
    fetches. *)
Definition erased (s : sensor) : sensor :=
  {| _name := _name s; _partregion_id := _partregion_id s; _pollen_type := _pollen_type s;
     _state := None; _attributes := ∅ |}.

(** The frame after [records] have been logged and nothing else has
    changed. *)
Definition logged (fr : frame) (records : list log_record) : frame :=
  {| self := self fr; exposure := exposure fr; log := log fr ++ records |}.

(** A statement that writes at most the reading of the sensor: the name, the
    sub-region and the category stay as the constructor set them. *)
Definition keeps_config {A : Type} (m : M A) : Prop :=
  forall fr : frame, erased (self (m fr).1) = erased (self fr).

(** Two frames that differ at most in the name of the sensor. *)
Definition same_reading (fr fr' : frame) : Prop :=
  _partregion_id (self fr) = _partregion_id (self fr')
  /\ _pollen_type (self fr) = _pollen_type (self fr')
  /\ _state (self fr) = _state (self fr')
  /\ _attributes (self fr) = _attributes (self fr')
  /\ exposure fr = exposure fr'
  /\ log fr = log fr'.

(** Two statements that do the same on frames that differ at most in the
    name of the sensor: same outcome, and frames that still differ at most in
    the name. *)
Definition agree {A : Type} (m m' : M A) : Prop :=
  forall fr fr' : frame,
    same_reading fr fr' ->
    same_reading (m fr).1 (m' fr').1 /\ (m fr).2 = (m' fr').2.

(** ** Sample inputs *)

(** A response with a success status whose body parses to [doc]. *)
Definition ok_response (doc : jsonval) : outcome response :=
  Return {| raise_for_status := Return tt; json := Return doc |}.

(** [DwdPollenSensor(api, name, partregion_id, pollen_type)] *)
Definition sensor_init (name : string) (partregion_id : Z) (pollen_type : string) : sensor :=
  {| _name := name; _partregion_id := partregion_id; _pollen_type := pollen_type;
     _state := None; _attributes := ∅ |}.

Definition sample_bands (today tomorrow dayafter_to : string) : jsonval :=
  JDict [("today", JStr today); ("tomorrow", JStr tomorrow); ("dayafter_to", JStr dayafter_to)].

Definition sample_pollen : jsonval :=
  JDict [("Graeser", sample_bands "2-3" "1" "0-1"); ("Ambrosia", sample_bands "0" "0" "0")].

(** A sub-region as the feed carries it. *)
Definition sample_partregion : jsonval :=
  JDict [("region_id", JInt 10); ("region_name", JStr "Schleswig-Holstein und Hamburg");
         ("partregion_id", JInt 11); ("partregion_name", JStr "Inseln und Marschen");
         ("Pollen", sample_pollen)].

(** A sub-region whose entry lacks the key ["region_name"]. *)
Definition sample_partregion_unnamed : jsonval :=
  JDict [("region_id", JInt 10); ("partregion_id", JInt 12);
         ("partregion_name", JStr "Geest, Schleswig-Holstein und Hamburg");
         ("Pollen", sample_pollen)].

Definition sample_document (last_update : string) (content : list jsonval) : jsonval :=
  JDict [("last_update", JStr last_update); ("next_update", JStr "2024-05-03 11:00 Uhr");
         ("content", JList content)].

(** 2024-05-02 13:05:07.000011 *)
Definition sample_today : datetime :=
  {| ordinal := 739008; hour := 13; minute := 5; second := 7; microsecond := 11 |}.

(** A frame as the [try] block leaves it when it completes with the given
    level. *)
Definition sample_frame (level : Z) : frame :=
  {| self := sensor_init "DWD Pollen" 11 "grass";
     exposure :=
       {| exp_level := Some level;
          exp_last_update := Some sample_today;
          exp_next_update := Some sample_today;
          exp_region_name := Some (JStr "Schleswig-Holstein und Hamburg");
          exp_partregion_name := Some (JStr "Inseln und Marschen") |};
     log := [] |}.

(** A response whose status [raise_for_status] refuses. *)
Definition status_error_response : response :=
  {| raise_for_status := Raise RequestException; json := Return JNull |}.

(** A response with a success status whose body is not JSON. *)
Definition invalid_body_response : response :=
  {| raise_for_status := Return tt; json := Raise ValueError |}.

(** The sensor of sub-region 11 for grass pollen, freshly constructed, in a
    frame with nothing logged. *)
Definition sample_start : frame :=
  {| self := sensor_init "DWD Pollen" 11 "grass"; exposure := exposure_empty; log := [] |}.

(** 2024-05-03 11:00, the next_update of the sample documents, and the
    last_update of a document issued [age] days before [sample_today]. *)
Definition sample_next_update : datetime :=
  {| ordinal := 739009; hour := 11; minute := 0; second := 0; microsecond := 0 |}.

Definition sample_last_update (age : Z) : datetime :=
  {| ordinal := 739008 - age; hour := 11; minute := 0; second := 0; microsecond := 0 |}.

(** A document cut short after its first key. *)
Definition sample_document_truncated : jsonval :=
  JDict [("last_update", JStr "2024-05-02 11:00 Uhr")].

(** A document whose last_update is not written in the format of the feed. *)
Definition sample_document_malformed : jsonval :=
  sample_document "02.05.2024 11:00" [sample_partregion].


(** The same with the three other tree species at band ["0"]. *)
Definition sample_tree_full : jsonval :=
  JDict [("Beifuss", JDict [("today", JStr "1")]); ("Birke", JDict [("today", JStr "3")]);
         ("Erle", JDict [("today", JStr "0")]); ("Esche", JDict [("today", JStr "0")]);
         ("Hasel", JDict [("today", JStr "0")]); ("Roggen", JDict [("today", JStr "0")])].

(** ** The entity name and the platform set-up *)

(** [str(n)] for an int, as an f-string renders it: the decimal numeral. *)
Definition str_int (n : Z) : string := NilZero.string_of_int (Z.to_int n).

(** The property [DwdPollenSensor.name]. *)
Definition name (s : sensor) : string :=
  _name s +:+ " " +:+ str_int (_partregion_id s) +:+ " " +:+ _pollen_type s.

(** The configuration of the platform as [setup_platform] reads it with
    [config.get]: the three keys of [PLATFORM_SCHEMA], which the host has
    validated and completed with the defaults before the call. *)
Record config : Type := {
  CONF_NAME : string;
  CONF_PARTREGION_ID : Z;
  CONF_POLLEN_TYPES : list string
}.

(** The loop of [setup_platform]; [added] collects the arguments of the calls
    of [add_entities] made so far, one list of entities per call. *)
Fixpoint setup_platform_loop (name : string) (partregion_id : Z)
    (pollen_types : list string) (added : list (list sensor)) : list (list sensor) :=
  match pollen_types with
  | [] => added
  | pollen_type :: rest =>
      setup_platform_loop name partregion_id rest
        (added ++ [[sensor_init name partregion_id pollen_type]])
  end.

(** [setup_platform]: the calls of [add_entities] it makes, in order. *)
Definition setup_platform (cfg : config) : list (list sensor) :=
  let name := CONF_NAME cfg in
  let partregion_id := CONF_PARTREGION_ID cfg in
  let pollen_types := CONF_POLLEN_TYPES cfg in
  setup_platform_loop name partregion_id pollen_types [].

(** ** The ways a refresh can end *)

(** The attributes [update] has written when it stops after the third, after
    the fourth and after the last assignment. *)
Definition attributes_level (level : Z) (last_update next_update : datetime)
  : gmap string pyval :=
  <[ATTR_NEXT_UPDATE := PD next_update]>
    (<[ATTR_LAST_UPDATE := PD last_update]>
       (<[ATTR_DESCRIPTION := PJ (JStr (get_description level))]> ∅)).

Definition attributes_region (level : Z) (last_update next_update : datetime)
    (region_name : jsonval) : gmap string pyval :=
  <[ATTR_REGION_NAME := PJ region_name]> (attributes_level level last_update next_update).

Definition attributes_full (level : Z) (last_update next_update : datetime)
    (region_name partregion_name : jsonval) : gmap string pyval :=
  <[ATTR_ATTRIBUTION := PJ (JStr ATTRIBUTION)]>
    (<[ATTR_PARTREGION_NAME := PJ partregion_name]>
       (attributes_region level last_update next_update region_name)).

(** The sensor [s] with the reading of a level in the range of the ranks:
    the state is the percentage of a level from 0 on, and None for -1. *)
Definition published (s : sensor) (level : Z) (attributes : gmap string pyval) : sensor :=
  {| _name := _name s; _partregion_id := _partregion_id s; _pollen_type := _pollen_type s;
     _state := if 0 <=? level then Some (round_half_even (100 * level) 6) else None;
     _attributes := attributes |}.

(** The four contents the local [exposure] can have when the [try] block is
    left, with the way it is left. *)
Inductive try_end : exposure_dict -> outcome unit -> Prop :=
| try_end_empty (e : exn) :
    try_end exposure_empty (Raise e)
| try_end_level (level : Z) (last_update next_update : datetime) (e : exn) :
    -1 <= level <= 6 ->
    try_end {| exp_level := Some level; exp_last_update := Some last_update;
               exp_next_update := Some next_update; exp_region_name := None;
               exp_partregion_name := None |} (Raise e)
| try_end_region (level : Z) (last_update next_update : datetime) (region_name : jsonval)
    (e : exn) :
    -1 <= level <= 6 ->
    try_end {| exp_level := Some level; exp_last_update := Some last_update;
               exp_next_update := Some next_update; exp_region_name := Some region_name;
               exp_partregion_name := None |} (Raise e)
| try_end_full (level : Z) (last_update next_update : datetime)
    (region_name partregion_name : jsonval) :
    -1 <= level <= 6 ->
    try_end {| exp_level := Some level; exp_last_update := Some last_update;
               exp_next_update := Some next_update; exp_region_name := Some region_name;
               exp_partregion_name := Some partregion_name |} (Return tt).

(** The four ways a call of [update] on the sensor [s] can end: the sensor
    afterwards and the outcome of the call. *)
Inductive refresh_end (s : sensor) : sensor -> outcome unit -> Prop :=
| refresh_end_erased (r : outcome unit) :
    refresh_end s (erased s) r
| refresh_end_level (level : Z) (last_update next_update : datetime) :
    -1 <= level <= 6 ->
    refresh_end s
      (published s level (attributes_level level last_update next_update))
      (Raise KeyError)
| refresh_end_region (level : Z) (last_update next_update : datetime)
    (region_name : jsonval) :
    -1 <= level <= 6 ->
    refresh_end s
      (published s level (attributes_region level last_update next_update region_name))
      (Raise KeyError)
| refresh_end_full (level : Z) (last_update next_update : datetime)
    (region_name partregion_name : jsonval) :
    -1 <= level <= 6 ->
    refresh_end s
      (published s level
         (attributes_full level last_update next_update region_name partregion_name))
      (Return tt).

(** * Properties *)

(** ** The lookup tables *)

Lemma py_max_cons (x : Z) (l : list Z) (d : Z) :
  py_max (x :: l) d = fold_left Z.max l x.
Proof. reflexivity. Qed.

Lemma fold_max_ge (l : list Z) (x : Z) : x <= fold_left Z.max l x.
Proof.
  revert x. induction l as [|y l IH]; intros x; simpl; [lia|].
  specialize (IH (Z.max x y)). lia.
Qed.

Lemma fold_max_upper (l : list Z) (x r : Z) :
  r ∈ x :: l -> r <= fold_left Z.max l x.
Proof.
  revert x. induction l as [|y l IH]; intros x Hin; simpl.
  - apply list_elem_of_singleton in Hin. lia.
  - apply elem_of_cons in Hin as [->|Hin].
    + pose proof (fold_max_ge l (Z.max x y)). lia.
    + apply elem_of_cons in Hin as [->|Hin].
      * pose proof (fold_max_ge l (Z.max x y)). lia.
      * apply IH. right. exact Hin.
Qed.

Lemma fold_max_elem (l : list Z) (x : Z) : fold_left Z.max l x ∈ x :: l.
Proof.
  revert x. induction l as [|y l IH]; intros x; simpl.
  - left.
  - specialize (IH (Z.max x y)). apply elem_of_cons in IH as [Heq|Hin].
    + rewrite Heq. destruct (Z.max_spec x y) as [[_ ->]|[_ ->]].
      * right. left.
      * left.
    + right. right. exact Hin.
Qed.

(** [py_max] is the largest element of a list that has one, and the default
    of the empty list. *)
Lemma py_max_spec (l : list Z) (d : Z) :
  (l = [] -> py_max l d = d)
  /\ (l <> [] -> py_max l d ∈ l /\ forall r, r ∈ l -> r <= py_max l d).
Proof.
  split.
  - intros ->. reflexivity.
  - intros Hne. destruct l as [|x l]; [congruence|]. rewrite py_max_cons. split.
    + apply fold_max_elem.
    + intros r Hr. apply fold_max_upper. exact Hr.
Qed.

Lemma level_mapping_get_nth (i : nat) (band : string) :
  RAW_BANDS !! i = Some band -> level_mapping_get (JStr band) = Return (Z.of_nat i).
Proof.
  intros H.
  do 7 (destruct i as [|i]; [injection H as <-; reflexivity|]).
  discriminate H.
Qed.

Lemma level_mapping_get_unknown (band : string) :
  band ∉ RAW_BANDS -> level_mapping_get (JStr band) = Return (-1).
Proof.
  intros H. unfold RAW_BANDS in H.
  repeat (apply not_elem_of_cons in H as [? H]).
  unfold level_mapping_get, level_mapping. simpl.
  repeat (case_decide; [congruence|]). reflexivity.
Qed.

(** C3. The band table maps the seven raw bands "0", "0-1", "1", "1-2", "2",
    "2-3", "3", in this order, to the ranks 0, 1, ..., 6 (so the rank grows
    strictly along the list), and every other string to the rank -1. *)
Theorem level_mapping_table :
  (forall (i : nat) (band : string),
      RAW_BANDS !! i = Some band -> level_mapping_get (JStr band) = Return (Z.of_nat i))
  /\ (forall band : string, band ∉ RAW_BANDS -> level_mapping_get (JStr band) = Return (-1)).
Proof.
  split.
  - exact level_mapping_get_nth.
  - exact level_mapping_get_unknown.
Qed.

(** The band at an odd position is a range, the one at an even position a
    single level; "4" is not a band. *)
Lemma level_mapping_table_witness :
  level_mapping_get (JStr "2-3") = Return 5 /\ level_mapping_get (JStr "4") = Return (-1).
Proof.
  split.
  - apply (proj1 level_mapping_table 5%nat "2-3"). reflexivity.
  - apply (proj2 level_mapping_table "4"). unfold RAW_BANDS.
    repeat (apply not_elem_of_cons; split; [discriminate|]). apply not_elem_of_nil.
Defined.

(** A band that is not a string is never found among the string keys; a
    list or a dict cannot be used as a key at all. *)
Lemma level_mapping_get_not_str (band : jsonval) :
  (forall s, band <> JStr s) ->
  level_mapping_get band = Return (-1) \/ level_mapping_get band = Raise TypeError.
Proof.
  intros H. destruct band; simpl; auto. destruct (H s). reflexivity.
Qed.

(** Every rank is between -1 and 6. *)
Lemma level_mapping_get_range (band : jsonval) (r : Z) :
  level_mapping_get band = Return r -> -1 <= r <= 6.
Proof.
  destruct band; simpl; try (intros [= <-]; lia); try discriminate.
  unfold level_mapping. simpl.
  repeat (case_decide; [intros [= <-]; lia|]). intros [= <-]. lia.
Qed.

(** C6. The description of the ranks 0 to 6 is the entry of the fixed
    seven-entry table, from "no level of exposure" to "high level of
    exposure"; every other integer, such as -1, 7 or 100, is described as
    "unknown level of exposure". *)
Theorem get_description_table :
  get_description 0 = "no level of exposure"
  /\ get_description 1 = "no to low level of exposure"
  /\ get_description 2 = "low level of exposure"
  /\ get_description 3 = "low to medium level of exposure"
  /\ get_description 4 = "medium level of exposure"
  /\ get_description 5 = "medium to high level exposure"
  /\ get_description 6 = "high level of exposure"
  /\ (forall level : Z, level < 0 \/ 6 < level ->
        get_description level = "unknown level of exposure").
Proof.
  repeat (split; [reflexivity|]).
  intros level H. unfold get_description, description_mapping. simpl.
  repeat (case_decide; [lia|]). reflexivity.
Qed.

Lemma get_description_table_witness :
  get_description (-1) = "unknown level of exposure"
  /\ get_description 7 = "unknown level of exposure"
  /\ get_description 100 = "unknown level of exposure".
Proof.
  pose proof get_description_table as (_ & _ & _ & _ & _ & _ & _ & H).
  repeat split; apply H; lia.
Defined.

(** ** The level of a category *)


Lemma calculate_level_loop_raise (pollen_list : jsonval) (day : string)
    (pre : list string) (sp : string) (post : list string) (ranks acc : list Z) (e : exn) :
  Forall2 (fun sp r => pollen_level pollen_list sp day = Return r) pre ranks ->
  pollen_level pollen_list sp day = Raise e ->
  calculate_level_loop pollen_list day (pre ++ sp :: post) acc = Raise e.
Proof.
  intros H Hsp. revert acc.
  induction H as [|sp' r pre ranks Hsp' _ IH]; intros acc; simpl.
  - rewrite Hsp. reflexivity.
  - rewrite Hsp'. simpl. apply IH.
Qed.


(** Every level [__calculate_level] returns is between -1 and 6. *)
Lemma calculate_level_loop_range (pollen_list : jsonval) (day : string)
    (species : list string) (acc out : list Z) :
  Forall (fun r => -1 <= r <= 6) acc ->
  calculate_level_loop pollen_list day species acc = Return out ->
  Forall (fun r => -1 <= r <= 6) out.
Proof.
  revert acc. induction species as [|sp species IH]; intros acc Hacc; simpl.
  - intros [= <-]. exact Hacc.
  - destruct (pollen_level pollen_list sp day) as [r|e] eqn:Hsp; simpl; [|discriminate].
    apply IH. apply Forall_app. split; [exact Hacc|].
    apply Forall_singleton. unfold pollen_level in Hsp.
    destruct (subscript pollen_list sp) as [entry|]; simpl in Hsp; [|discriminate].
    destruct (subscript entry day) as [band|]; simpl in Hsp; [|discriminate].
    apply (level_mapping_get_range band). exact Hsp.
Qed.

Lemma calculate_level_range (pollen_list : jsonval) (category day : string) (level : Z) :
  calculate_level pollen_list category day = Return level -> -1 <= level <= 6.
Proof.
  unfold calculate_level.
  destruct (calculate_level_loop _ _ _ _) as [out|] eqn:Hloop; simpl; [|discriminate].
  intros [= <-]. apply calculate_level_loop_range in Hloop; [|constructor].
  destruct (py_max_spec out (-1)) as [Hnil Hcons].
  destruct out as [|x out]; [rewrite Hnil by reflexivity; lia|].
  destruct Hcons as [Hin _]; [discriminate|].
  rewrite Forall_forall in Hloop. apply Hloop. exact Hin.
Qed.









(** ** The published state *)

(** The float computation [round(level / 6 * 100)] agrees, on every level a
    sensor can hold, with rounding the exact quotient 100 * level / 6 to the
    nearest integer. *)
Lemma percentage_exact (level : Z) :
  0 <= level <= 6 -> percentage level = Return (round_half_even (100 * level) 6).
Proof.
  intros H.
  assert (level = 0 \/ level = 1 \/ level = 2 \/ level = 3
          \/ level = 4 \/ level = 5 \/ level = 6) as Hcases by lia.
  destruct Hcases as [->|[->|[->|[->|[->|[->| ->]]]]]]; vm_compute; reflexivity.
Qed.




(** ** The fetcher *)



(** ** The refresh *)

Section Refresh.

Variable strptime : string -> string -> option datetime.

Lemma sub_days_return (d : datetime) (n : Z) :
  1 <= ordinal d - n <= MAXORDINAL ->
  exists d', sub_days d n = Return d' /\ date d' = date d - n.
Proof.
  intros H. unfold sub_days.
  destruct (Z.leb_spec 1 (ordinal d - n)); [|lia].
  destruct (Z.leb_spec (ordinal d - n) MAXORDINAL); [|lia].
  simpl. eexists. split; reflexivity.
Qed.

(** The assignments that follow the level leave it as it is. *)
Lemma update_store_level (lu nu : datetime) (partregion : jsonval) (fr : frame) :
  exp_level (exposure (update_store lu nu partregion fr).1) = exp_level (exposure fr).
Proof.
  unfold update_store, mbind, M_bind, lift. simpl.
  destruct (subscript partregion "region_name"); [|reflexivity]. simpl.
  destruct (subscript partregion "partregion_name"); reflexivity.
Qed.

(** What [update_level_for] stores: the calculated level, or nothing when a
    lookup raises. *)
Lemma update_level_for_level (partregion : jsonval) (day : string) (fr : frame) :
  exp_level (exposure (update_level_for partregion day fr).1)
  = match (pollen ← subscript partregion "Pollen";
           calculate_level pollen (_pollen_type (self fr)) day) with
    | Return level => Some level
    | Raise _ => exp_level (exposure fr)
    end.
Proof.
  unfold update_level_for, mbind, M_bind, outcome_bind, lift, get_self. simpl.
  destruct (subscript partregion "Pollen") as [pollen|]; [|reflexivity]. simpl.
  destruct (calculate_level pollen (_pollen_type (self fr)) day); reflexivity.
Qed.

(** The try block, once the timestamps are parsed and the search for the
    sub-region has returned: the day-key is a function of the age of the
    snapshot in days. *)
Lemma update_try_steps (today : datetime) (result : jsonval) (fr : frame)
    (raw_last_update raw_next_update : jsonval) (last_update next_update : datetime)
    (content partregion : jsonval) :
  3 <= ordinal today <= MAXORDINAL ->
  subscript result "last_update" = Return raw_last_update ->
  datetime_strptime strptime raw_last_update FEED_FORMAT = Return last_update ->
  subscript result "next_update" = Return raw_next_update ->
  datetime_strptime strptime raw_next_update FEED_FORMAT = Return next_update ->
  subscript result "content" = Return content ->
  find_partregion content (_partregion_id (self fr)) = Return partregion ->
  update_try strptime today result fr
  = (_ ← match spec_day_key (date today - date last_update) with
         | Some day => update_level_for partregion day
         | None => set_exposure_level (-1)
         end;
     update_store last_update next_update partregion) fr.
Proof.
  intros Htoday Hraw_lu Hlu Hraw_nu Hnu Hcontent Hfind.
  destruct (sub_days_return today 1) as (yesterday & Hy & Hdy); [lia|].
  destruct (sub_days_return yesterday 1) as (before & Hb & Hdb).
  { unfold date in Hdy. lia. }
  unfold update_try, mbind at 1 2 3 4 5 6 7 8 9, M_bind, lift, get_self.
  fold FEED_FORMAT.
  rewrite Hy, Hb, Hraw_lu, Hlu, Hraw_nu, Hnu, Hcontent. simpl. rewrite Hfind.
  unfold spec_day_key. rewrite Hdb, Hdy.
  destruct (Z.eqb_spec (date last_update) (date today)) as [E0|N0].
  - rewrite E0, Z.sub_diag. reflexivity.
  - destruct (Z.eqb_spec (date today - date last_update) 0); [lia|].
    destruct (Z.eqb_spec (date last_update) (date today - 1)) as [E1|N1].
    + destruct (Z.eqb_spec (date today - date last_update) 1); [|lia]. reflexivity.
    + destruct (Z.eqb_spec (date today - date last_update) 1); [lia|].
      destruct (Z.eqb_spec (date last_update) (date today - 1 - 1)) as [E2|N2].
      * destruct (Z.eqb_spec (date today - date last_update) 2); [|lia]. reflexivity.
      * destruct (Z.eqb_spec (date today - date last_update) 2); [lia|]. reflexivity.
Qed.

(** C4. Once the two timestamps are parsed and the sub-region is found, the
    try block chooses the day-key from the difference between the current
    date and the date of last_update alone: 0 days selects "today", 1 day
    "tomorrow", 2 days "dayafter_to"; for any other difference (older, or in
    the future) the level is set to -1 and the pollen data is not looked
    at. *)
Theorem update_try_day_key (today : datetime) (result : jsonval) (fr : frame)
    (raw_last_update raw_next_update : jsonval) (last_update next_update : datetime)
    (content partregion : jsonval) :
  3 <= ordinal today <= MAXORDINAL ->
  subscript result "last_update" = Return raw_last_update ->
  datetime_strptime strptime raw_last_update FEED_FORMAT = Return last_update ->
  subscript result "next_update" = Return raw_next_update ->
  datetime_strptime strptime raw_next_update FEED_FORMAT = Return next_update ->
  subscript result "content" = Return content ->
  find_partregion content (_partregion_id (self fr)) = Return partregion ->
  let offset := date today - date last_update in
  update_try strptime today result fr
  = (_ ← match spec_day_key offset with
         | Some day => update_level_for partregion day
         | None => set_exposure_level (-1)
         end;
     update_store last_update next_update partregion) fr
  /\ exp_level (exposure (update_try strptime today result fr).1)
     = match spec_day_key offset with
       | Some day =>
           match (pollen ← subscript partregion "Pollen";
                  calculate_level pollen (_pollen_type (self fr)) day) with
           | Return level => Some level
           | Raise _ => exp_level (exposure fr)
           end
       | None => Some (-1)
       end.
Proof.
  intros Htoday Hraw_lu Hlu Hraw_nu Hnu Hcontent Hfind offset.
  pose proof (update_try_steps today result fr _ _ _ _ _ _
                Htoday Hraw_lu Hlu Hraw_nu Hnu Hcontent Hfind) as Heq.
  fold offset in Heq. split; [exact Heq|].
  rewrite Heq. unfold mbind at 1, M_bind.
  destruct (spec_day_key offset) as [day|].
  - pose proof (update_level_for_level partregion day fr) as Hlevel.
    destruct (update_level_for partregion day fr) as [fr' [[]|e]] eqn:Hrun; simpl in Hlevel.
    + rewrite update_store_level. exact Hlevel.
    + simpl. exact Hlevel.
  - simpl. rewrite update_store_level. reflexivity.
Qed.

(** A value that can be indexed by a string is a dict with a key, hence
    true. *)
Lemma subscript_truthy (v : jsonval) (key : string) (x : jsonval) :
  subscript v key = Return x -> truthy v = true.
Proof.
  destruct v as [| | | | | |d]; try discriminate.
  destruct d; [discriminate|]. reflexivity.
Qed.

(** The search falls off the end of a list in which every entry has an id
    different from the requested one, and returns None. *)
Lemma find_partregion_loop_none (partregions : list jsonval) (partregion_id : Z) :
  Forall (fun p => exists id, subscript p "partregion_id" = Return id
                              /\ py_eq_int id partregion_id = false) partregions ->
  find_partregion_loop partregions partregion_id = Return JNull.
Proof.
  induction 1 as [|p rest (id & Hid & Hne) _ IH]; simpl; [reflexivity|].
  rewrite Hid. simpl. rewrite Hne. exact IH.
Qed.

(** The start of [update]: the previous reading is erased and the local
    [exposure] is empty when the document is examined. *)
Lemma update_fetched (today : datetime) (result : jsonval) (s : sensor) :
  update strptime today (ok_response result)
    {| self := s; exposure := exposure_empty; log := [] |}
  = (_ ← (if truthy result then
            try_except (update_try strptime today result)
              (fun ex =>
                 match ex with
                 | KeyError => Some (logger_error (ErroneousResult ex))
                 | _ => None
                 end)
          else logger_error EmptyResult);
     update_publish) {| self := erased s; exposure := exposure_empty; log := [] |}.
Proof. reflexivity. Qed.

(** C9. For a document in which both timestamps parse and the requested
    sub-region is present with its two names, and whose last_update is more
    than two days old or in the future, [update] returns with the state None
    and with all six attributes set: the description "unknown level of
    exposure", last_update, next_update, region_name, partregion_name and the
    attribution. *)
Theorem update_stale_attributes (today : datetime) (result : jsonval) (s : sensor)
    (raw_last_update raw_next_update : jsonval) (last_update next_update : datetime)
    (content partregion region_name partregion_name : jsonval) :
  3 <= ordinal today <= MAXORDINAL ->
  subscript result "last_update" = Return raw_last_update ->
  datetime_strptime strptime raw_last_update FEED_FORMAT = Return last_update ->
  subscript result "next_update" = Return raw_next_update ->
  datetime_strptime strptime raw_next_update FEED_FORMAT = Return next_update ->
  subscript result "content" = Return content ->
  find_partregion content (_partregion_id s) = Return partregion ->
  subscript partregion "region_name" = Return region_name ->
  subscript partregion "partregion_name" = Return partregion_name ->
  2 < date today - date last_update \/ date today - date last_update < 0 ->
  let attributes : gmap string pyval :=
    <[ATTR_ATTRIBUTION := PJ (JStr ATTRIBUTION)]>
      (<[ATTR_PARTREGION_NAME := PJ partregion_name]>
         (<[ATTR_REGION_NAME := PJ region_name]>
            (<[ATTR_NEXT_UPDATE := PD next_update]>
               (<[ATTR_LAST_UPDATE := PD last_update]>
                  (<[ATTR_DESCRIPTION := PJ (JStr "unknown level of exposure")]> ∅))))) in
  run_update strptime today (ok_response result) s
  = ({| _name := _name s; _partregion_id := _partregion_id s;
        _pollen_type := _pollen_type s; _state := None; _attributes := attributes |},
     [], Return tt)
  /\ size attributes = 6%nat.
Proof.
  intros Htoday Hraw_lu Hlu Hraw_nu Hnu Hcontent Hfind Hrn Hpn Hstale attributes.
  split; [|reflexivity].
  unfold run_update. rewrite update_fetched.
  rewrite (subscript_truthy _ _ _ Hraw_lu).
  unfold mbind at 1, M_bind at 1, try_except.
  rewrite (update_try_steps today result
             {| self := erased s; exposure := exposure_empty; log := [] |} _ _ _ _ _ _
             Htoday Hraw_lu Hlu Hraw_nu Hnu Hcontent Hfind).
  assert (spec_day_key (date today - date last_update) = None) as ->.
  { unfold spec_day_key.
    destruct (Z.eqb_spec (date today - date last_update) 0); [lia|].
    destruct (Z.eqb_spec (date today - date last_update) 1); [lia|].
    destruct (Z.eqb_spec (date today - date last_update) 2); [lia|]. reflexivity. }
  unfold update_store, mbind, M_bind, lift. simpl.
  rewrite Hrn. simpl. rewrite Hpn. reflexivity.
Qed.

(** C1, on the code. For a document in which both timestamps parse and whose
    content lists only sub-regions with another id, [__find_partregion]
    returns None and the next subscript raises TypeError, which the handler
    for KeyError does not catch: [update] raises, the state stays None and the
    attributes stay empty. *)
Theorem update_unknown_partregion_raises (today : datetime) (result : jsonval) (s : sensor)
    (raw_last_update raw_next_update : jsonval) (last_update next_update : datetime)
    (partregions : list jsonval) :
  3 <= ordinal today <= MAXORDINAL ->
  subscript result "last_update" = Return raw_last_update ->
  datetime_strptime strptime raw_last_update FEED_FORMAT = Return last_update ->
  subscript result "next_update" = Return raw_next_update ->
  datetime_strptime strptime raw_next_update FEED_FORMAT = Return next_update ->
  subscript result "content" = Return (JList partregions) ->
  Forall (fun p => exists id, subscript p "partregion_id" = Return id
                              /\ py_eq_int id (_partregion_id s) = false) partregions ->
  run_update strptime today (ok_response result) s = (erased s, [], Raise TypeError).
Proof.
  intros Htoday Hraw_lu Hlu Hraw_nu Hnu Hcontent Hall.
  assert (find_partregion (JList partregions) (_partregion_id s) = Return JNull) as Hfind.
  { apply find_partregion_loop_none. exact Hall. }
  unfold run_update. rewrite update_fetched.
  rewrite (subscript_truthy _ _ _ Hraw_lu).
  unfold mbind at 1, M_bind at 1, try_except.
  rewrite (update_try_steps today result
             {| self := erased s; exposure := exposure_empty; log := [] |} _ _ _ _ _ _
             Htoday Hraw_lu Hlu Hraw_nu Hnu Hcontent Hfind).
  destruct (spec_day_key (date today - date last_update)); reflexivity.
Qed.

(** *** What a refresh depends on *)

Lemma keeps_config_ret {A : Type} (a : A) : keeps_config (mret a : M A).
Proof. intros fr. reflexivity. Qed.

Lemma keeps_config_lift {A : Type} (o : outcome A) : keeps_config (lift o).
Proof. intros fr. reflexivity. Qed.

Lemma keeps_config_bind {A B : Type} (m : M A) (k : A -> M B) :
  keeps_config m -> (forall a, keeps_config (k a)) -> keeps_config (m ≫= k).
Proof.
  intros Hm Hk fr. unfold mbind, M_bind. specialize (Hm fr).
  destruct (m fr) as [fr' [a|e]]; simpl in *.
  - rewrite Hk. exact Hm.
  - exact Hm.
Qed.

Lemma keeps_config_try {A : Type} (body : M A) (handlers : exn -> option (M A)) :
  keeps_config body ->
  (forall ex handler, handlers ex = Some handler -> keeps_config handler) ->
  keeps_config (try_except body handlers).
Proof.
  intros Hbody Hh fr. unfold try_except. specialize (Hbody fr).
  destruct (body fr) as [fr' [a|ex]]; simpl in *; [exact Hbody|].
  destruct (handlers ex) as [handler|] eqn:Hex; simpl; [|exact Hbody].
  rewrite (Hh ex handler Hex). exact Hbody.
Qed.

Lemma keeps_config_get_self : keeps_config get_self.
Proof. intros fr. reflexivity. Qed.

Lemma keeps_config_get_local_exposure : keeps_config get_local_exposure.
Proof. intros fr. reflexivity. Qed.

Lemma keeps_config_logger_error (r : log_record) : keeps_config (logger_error r).
Proof. intros fr. reflexivity. Qed.

Lemma keeps_config_set_state (v : option Z) : keeps_config (set_state v).
Proof. intros fr. reflexivity. Qed.

Lemma keeps_config_set_attributes (a : gmap string pyval) : keeps_config (set_attributes a).
Proof. intros fr. reflexivity. Qed.

Lemma keeps_config_set_attribute (key : string) (v : pyval) :
  keeps_config (set_attribute key v).
Proof. intros fr. reflexivity. Qed.

Lemma keeps_config_set_exposure (e : exposure_dict) : keeps_config (set_exposure e).
Proof. intros fr. reflexivity. Qed.

Lemma keeps_config_set_exposure_level (v : Z) : keeps_config (set_exposure_level v).
Proof. intros fr. reflexivity. Qed.

Lemma keeps_config_set_exposure_last_update (v : datetime) :
  keeps_config (set_exposure_last_update v).
Proof. intros fr. reflexivity. Qed.

Lemma keeps_config_set_exposure_next_update (v : datetime) :
  keeps_config (set_exposure_next_update v).
Proof. intros fr. reflexivity. Qed.

Lemma keeps_config_set_exposure_region_name (v : jsonval) :
  keeps_config (set_exposure_region_name v).
Proof. intros fr. reflexivity. Qed.

Lemma keeps_config_set_exposure_partregion_name (v : jsonval) :
  keeps_config (set_exposure_partregion_name v).
Proof. intros fr. reflexivity. Qed.

Create HintDb config.

#[local] Hint Resolve keeps_config_ret keeps_config_lift keeps_config_get_self
  keeps_config_get_local_exposure keeps_config_logger_error keeps_config_set_state
  keeps_config_set_attributes keeps_config_set_attribute keeps_config_set_exposure
  keeps_config_set_exposure_level keeps_config_set_exposure_last_update
  keeps_config_set_exposure_next_update keeps_config_set_exposure_region_name
  keeps_config_set_exposure_partregion_name : config.

Ltac keeps_config_step :=
  match goal with
  | |- keeps_config (_ ≫= _) => apply keeps_config_bind; [|intros ?]
  | |- keeps_config (if ?b then _ else _) => destruct b
  | |- keeps_config _ => solve [auto with config]
  end.

Lemma keeps_config_get_exposure (requests_get : outcome response) :
  keeps_config (get_exposure requests_get).
Proof.
  unfold get_exposure. apply keeps_config_try.
  - repeat keeps_config_step.
  - intros ex handler H. destruct ex; inversion H; subst; repeat keeps_config_step.
Qed.

Lemma keeps_config_update_try (today : datetime) (result : jsonval) :
  keeps_config (update_try strptime today result).
Proof.
  unfold update_try, update_store, update_level_for. repeat keeps_config_step.
Qed.

Lemma keeps_config_update_publish : keeps_config update_publish.
Proof. unfold update_publish, update_attributes. repeat keeps_config_step. Qed.

Lemma keeps_config_update (today : datetime) (requests_get : outcome response) :
  keeps_config (update strptime today requests_get).
Proof.
  unfold update. repeat keeps_config_step.
  - apply keeps_config_get_exposure.
  - apply keeps_config_try; [apply keeps_config_update_try|].
    intros ex handler H. destruct ex; inversion H; subst. auto with config.
  - apply keeps_config_update_publish.
Qed.

(** [update] starts by erasing the reading, so a run does not see the state
    and the attributes the sensor had before. *)
Lemma run_update_erased (today : datetime) (requests_get : outcome response) (s : sensor) :
  run_update strptime today requests_get s
  = run_update strptime today requests_get (erased s).
Proof. reflexivity. Qed.

(** *** What a refresh is a function of *)

Lemma agree_ret {A : Type} (a : A) : agree (mret a : M A) (mret a).
Proof. intros fr fr' H. split; [exact H|reflexivity]. Qed.

Lemma agree_lift {A : Type} (o : outcome A) : agree (lift o) (lift o).
Proof. intros fr fr' H. split; [exact H|reflexivity]. Qed.

Lemma agree_bind {A B : Type} (m m' : M A) (k k' : A -> M B) :
  agree m m' -> (forall a, agree (k a) (k' a)) -> agree (m ≫= k) (m' ≫= k').
Proof.
  intros Hm Hk fr fr' H. unfold mbind, M_bind.
  destruct (Hm fr fr' H) as [H1 H2].
  destruct (m fr) as [f1 [a|e]], (m' fr') as [f1' [a'|e']]; simpl in *;
    try discriminate; injection H2 as <-.
  - apply Hk. exact H1.
  - split; [exact H1|reflexivity].
Qed.

Lemma agree_try {A : Type} (body body' : M A) (handlers : exn -> option (M A)) :
  agree body body' ->
  (forall ex handler, handlers ex = Some handler -> agree handler handler) ->
  agree (try_except body handlers) (try_except body' handlers).
Proof.
  intros Hbody Hh fr fr' H. unfold try_except.
  destruct (Hbody fr fr' H) as [H1 H2].
  destruct (body fr) as [f1 [a|e]], (body' fr') as [f1' [a'|e']]; simpl in *;
    try discriminate; injection H2 as <-.
  - split; [exact H1|reflexivity].
  - destruct (handlers e) as [handler|] eqn:He.
    + apply (Hh e handler He). exact H1.
    + split; [exact H1|reflexivity].
Qed.

(** The sensor is read for its sub-region and its category only. *)
Lemma agree_get_self {B : Type} (k k' : sensor -> M B) :
  (forall s s', _partregion_id s = _partregion_id s' -> _pollen_type s = _pollen_type s' ->
                agree (k s) (k' s')) ->
  agree (get_self ≫= k) (get_self ≫= k').
Proof.
  intros Hk fr fr' H. unfold mbind, M_bind, get_self.
  apply Hk; [apply H|apply H|exact H].
Qed.

Ltac agree_primitive :=
  intros [[] ? ?] [[] ? ?] (? & ? & ? & ? & ? & ?); simpl in *; subst;
  split; [repeat split|reflexivity].

Lemma agree_get_local_exposure : agree get_local_exposure get_local_exposure.
Proof.
  intros fr fr' H. split; [exact H|]. unfold get_local_exposure. simpl.
  f_equal. apply H.
Qed.

Lemma agree_logger_error (r : log_record) : agree (logger_error r) (logger_error r).
Proof. agree_primitive. Qed.

Lemma agree_set_state (v : option Z) : agree (set_state v) (set_state v).
Proof. agree_primitive. Qed.

Lemma agree_set_attributes (a : gmap string pyval) :
  agree (set_attributes a) (set_attributes a).
Proof. agree_primitive. Qed.

Lemma agree_set_attribute (key : string) (v : pyval) :
  agree (set_attribute key v) (set_attribute key v).
Proof. agree_primitive. Qed.

Lemma agree_set_exposure (e : exposure_dict) : agree (set_exposure e) (set_exposure e).
Proof. agree_primitive. Qed.

Lemma agree_set_exposure_level (v : Z) :
  agree (set_exposure_level v) (set_exposure_level v).
Proof. agree_primitive. Qed.

Lemma agree_set_exposure_last_update (v : datetime) :
  agree (set_exposure_last_update v) (set_exposure_last_update v).
Proof. agree_primitive. Qed.

Lemma agree_set_exposure_next_update (v : datetime) :
  agree (set_exposure_next_update v) (set_exposure_next_update v).
Proof. agree_primitive. Qed.

Lemma agree_set_exposure_region_name (v : jsonval) :
  agree (set_exposure_region_name v) (set_exposure_region_name v).
Proof. agree_primitive. Qed.

Lemma agree_set_exposure_partregion_name (v : jsonval) :
  agree (set_exposure_partregion_name v) (set_exposure_partregion_name v).
Proof. agree_primitive. Qed.

Create HintDb agree.

#[local] Hint Resolve agree_ret agree_lift agree_get_local_exposure agree_logger_error
  agree_set_state agree_set_attributes agree_set_attribute agree_set_exposure
  agree_set_exposure_level agree_set_exposure_last_update agree_set_exposure_next_update
  agree_set_exposure_region_name agree_set_exposure_partregion_name : agree.

Ltac agree_step :=
  match goal with
  | |- agree (get_self ≫= _) (get_self ≫= _) =>
      apply agree_get_self;
      let H1 := fresh "Hid" in let H2 := fresh "Htype" in
      intros ? ? H1 H2; try rewrite H1; try rewrite H2
  | |- agree (_ ≫= _) (_ ≫= _) => apply agree_bind; [|intros ?]
  | |- agree (if ?b then _ else _) (if ?b then _ else _) => destruct b
  | |- agree _ _ => solve [auto with agree]
  end.

Lemma agree_get_exposure (requests_get : outcome response) :
  agree (get_exposure requests_get) (get_exposure requests_get).
Proof.
  unfold get_exposure. apply agree_try.
  - repeat agree_step.
  - intros ex handler H. destruct ex; inversion H; subst; repeat agree_step.
Qed.

Lemma agree_update_level_for (partregion : jsonval) (day : string) :
  agree (update_level_for partregion day) (update_level_for partregion day).
Proof. unfold update_level_for. repeat agree_step. Qed.

Lemma agree_update_store (lu nu : datetime) (partregion : jsonval) :
  agree (update_store lu nu partregion) (update_store lu nu partregion).
Proof. unfold update_store. repeat agree_step. Qed.

#[local] Hint Resolve agree_update_level_for agree_update_store : agree.

(** The try block reads the clock for its date only. *)
Lemma update_try_date (today : datetime) (result : jsonval) (fr : frame) :
  update_try strptime today result fr
  = update_try strptime
      {| ordinal := ordinal today; hour := 0; minute := 0; second := 0; microsecond := 0 |}
      result fr.
Proof.
  destruct today as [o h m sec us].
  unfold update_try, mbind, M_bind, lift, sub_days. simpl.
  destruct ((1 <=? o - 1) && (o - 1 <=? MAXORDINAL)); [|reflexivity].
  simpl.
  destruct ((1 <=? o - 1 - 1) && (o - 1 - 1 <=? MAXORDINAL)); reflexivity.
Qed.

Lemma agree_update_try (today today' : datetime) (result : jsonval) :
  date today = date today' ->
  agree (update_try strptime today result) (update_try strptime today' result).
Proof.
  intros Hdate fr fr' H.
  rewrite (update_try_date today), (update_try_date today').
  unfold date in Hdate. rewrite Hdate.
  revert fr fr' H.
  change (agree (update_try strptime
                   {| ordinal := ordinal today'; hour := 0; minute := 0; second := 0;
                      microsecond := 0 |} result)
                (update_try strptime
                   {| ordinal := ordinal today'; hour := 0; minute := 0; second := 0;
                      microsecond := 0 |} result)).
  unfold update_try. repeat agree_step.
Qed.

Lemma agree_update_publish : agree update_publish update_publish.
Proof. unfold update_publish, update_attributes. repeat agree_step. Qed.

Lemma agree_update (today today' : datetime) (requests_get : outcome response) :
  date today = date today' ->
  agree (update strptime today requests_get) (update strptime today' requests_get).
Proof.
  intros Hdate. unfold update. repeat agree_step.
  - apply agree_get_exposure.
  - apply agree_try; [apply agree_update_try; exact Hdate|].
    intros ex handler H. destruct ex; inversion H; subst. auto with agree.
  - apply agree_update_publish.
Qed.

(** The reading a refresh produces is a function of what was fetched, of the
    sub-region and the category of the sensor and of the current date. *)
Lemma run_update_function (today today' : datetime) (requests_get : outcome response)
    (s s' : sensor) :
  date today = date today' ->
  _partregion_id s = _partregion_id s' ->
  _pollen_type s = _pollen_type s' ->
  let r := run_update strptime today requests_get s in
  let r' := run_update strptime today' requests_get s' in
  _state r.1.1 = _state r'.1.1 /\ _attributes r.1.1 = _attributes r'.1.1
  /\ r.1.2 = r'.1.2 /\ r.2 = r'.2.
Proof.
  intros Hdate Hid Htype r r'. subst r r'.
  rewrite (run_update_erased today requests_get s).
  rewrite (run_update_erased today' requests_get s').
  unfold run_update.
  destruct (agree_update today today' requests_get Hdate
              {| self := erased s; exposure := exposure_empty; log := [] |}
              {| self := erased s'; exposure := exposure_empty; log := [] |})
    as [(_ & _ & Hstate & Hattrs & _ & Hlog) Hr].
  { repeat split; assumption. }
  destruct (update strptime today requests_get _) as [fr r].
  destruct (update strptime today' requests_get _) as [fr' r'].
  simpl in *. auto.
Qed.

(** C8. A refresh is a function of the document fetched, the sub-region and
    category of the sensor and the current date. It does not depend on the
    reading the sensor held before, and running it a second time on the
    sensor it has produced yields the same state and attributes, the same log
    records and the same outcome. Two runs on the same fetch result by
    sensors of the same sub-region and category, at two times of the same
    day, yield the same state, the same attributes, the same log records and
    the same outcome. *)
Theorem update_deterministic (today : datetime) (requests_get : outcome response)
    (s : sensor) :
  run_update strptime today requests_get s
  = run_update strptime today requests_get (erased s)
  /\ run_update strptime today requests_get (run_update strptime today requests_get s).1.1
     = run_update strptime today requests_get s
  /\ (forall (today' : datetime) (s' : sensor),
        date today' = date today ->
        _partregion_id s' = _partregion_id s ->
        _pollen_type s' = _pollen_type s ->
        let r := run_update strptime today requests_get s in
        let r' := run_update strptime today' requests_get s' in
        _state r'.1.1 = _state r.1.1 /\ _attributes r'.1.1 = _attributes r.1.1
        /\ r'.1.2 = r.1.2 /\ r'.2 = r.2).
Proof.
  split; [apply run_update_erased|]. split.
  - rewrite (run_update_erased _ _ (run_update strptime today requests_get s).1.1).
    rewrite (run_update_erased _ _ s) at 2.
    f_equal. unfold run_update.
    pose proof (keeps_config_update today requests_get
                  {| self := s; exposure := exposure_empty; log := [] |}) as H.
    destruct (update strptime today requests_get _) as [fr r]. exact H.
  - intros today' s' Hdate Hid Htype.
    apply (run_update_function today' today requests_get s' s Hdate Hid Htype).
Qed.

(** When the fetch fails, the run ends with the reading erased. *)
Lemma update_fetch_failed (today : datetime) (s : sensor) :
  run_update strptime today (Raise RequestException) s
  = (erased s, [ErrorFetching RESOURCE RequestException; EmptyResult], Return tt).
Proof. reflexivity. Qed.

End Refresh.

(** ** The refresh on the sample documents *)

Lemma update_try_day_key_witness :
  let result := sample_document "2024-05-01 11:00 Uhr" [sample_partregion] in
  spec_day_key (date sample_today - date (sample_last_update 1)) = Some "tomorrow"
  /\ exp_level (exposure (update_try strptime_feed sample_today result sample_start).1)
     = Some 2.
Proof.
  intros result.
  destruct (update_try_day_key strptime_feed sample_today result sample_start
              (JStr "2024-05-01 11:00 Uhr") (JStr "2024-05-03 11:00 Uhr")
              (sample_last_update 1) sample_next_update
              (JList [sample_partregion]) sample_partregion) as [_ Hlevel];
    [unfold MAXORDINAL; simpl; lia|reflexivity..|].
  split; [reflexivity|]. rewrite Hlevel. reflexivity.
Defined.

Lemma update_deterministic_witness :
  let later :=
    {| ordinal := 739008; hour := 23; minute := 59; second := 30; microsecond := 0 |} in
  let doc := ok_response (sample_document "2024-05-01 11:00 Uhr" [sample_partregion]) in
  let r := run_update strptime_feed sample_today doc (sensor_init "DWD Pollen" 11 "grass") in
  let r' := run_update strptime_feed later doc (sensor_init "Pollen Nord" 11 "grass") in
  _state r'.1.1 = _state r.1.1 /\ _attributes r'.1.1 = _attributes r.1.1
  /\ r'.1.2 = r.1.2 /\ r'.2 = r.2.
Proof.
  intros later doc.
  apply (proj2 (proj2 (update_deterministic strptime_feed sample_today doc
                         (sensor_init "DWD Pollen" 11 "grass")))
           later (sensor_init "Pollen Nord" 11 "grass")); reflexivity.
Defined.

Lemma update_stale_attributes_witness :
  let result := sample_document "2024-04-29 11:00 Uhr" [sample_partregion] in
  let attributes : gmap string pyval :=
    <[ATTR_ATTRIBUTION := PJ (JStr ATTRIBUTION)]>
      (<[ATTR_PARTREGION_NAME := PJ (JStr "Inseln und Marschen")]>
         (<[ATTR_REGION_NAME := PJ (JStr "Schleswig-Holstein und Hamburg")]>
            (<[ATTR_NEXT_UPDATE := PD sample_next_update]>
               (<[ATTR_LAST_UPDATE := PD (sample_last_update 3)]>
                  (<[ATTR_DESCRIPTION := PJ (JStr "unknown level of exposure")]> ∅))))) in
  run_update strptime_feed sample_today (ok_response result)
    (sensor_init "DWD Pollen" 11 "grass")
  = ({| _name := "DWD Pollen"; _partregion_id := 11; _pollen_type := "grass";
        _state := None; _attributes := attributes |}, [], Return tt)
  /\ size attributes = 6%nat.
Proof.
  apply (update_stale_attributes strptime_feed sample_today
           (sample_document "2024-04-29 11:00 Uhr" [sample_partregion])
           (sensor_init "DWD Pollen" 11 "grass")
           (JStr "2024-04-29 11:00 Uhr") (JStr "2024-05-03 11:00 Uhr")
           (sample_last_update 3) sample_next_update
           (JList [sample_partregion]) sample_partregion
           (JStr "Schleswig-Holstein und Hamburg") (JStr "Inseln und Marschen"));
    [unfold MAXORDINAL; simpl; lia|reflexivity..|left; simpl; lia].
Defined.

Lemma update_unknown_partregion_raises_witness :
  run_update strptime_feed sample_today
    (ok_response (sample_document "2024-05-02 11:00 Uhr" [sample_partregion]))
    (sensor_init "DWD Pollen" 12 "grass")
  = (sensor_init "DWD Pollen" 12 "grass", [], Raise TypeError).
Proof.
  apply (update_unknown_partregion_raises strptime_feed sample_today
           (sample_document "2024-05-02 11:00 Uhr" [sample_partregion])
           (sensor_init "DWD Pollen" 12 "grass")
           (JStr "2024-05-02 11:00 Uhr") (JStr "2024-05-03 11:00 Uhr")
           (sample_last_update 0) sample_next_update [sample_partregion]);
    [unfold MAXORDINAL; simpl; lia|reflexivity..|].
  constructor; [|constructor]. exists (JInt 11). split; reflexivity.
Defined.

(** C10, on the code. The requested sub-region is present but its entry has
    no "region_name": the KeyError is caught and logged after the level and
    the two timestamps were stored, so the exposure is not empty; the
    statements after the try block then publish the state 83 and three
    attributes, and the lookup of "region_name" raises KeyError again, this
    time outside the try block. *)
Theorem update_partial_exposure_raises :
  run_update strptime_feed sample_today
    (ok_response (sample_document "2024-05-02 11:00 Uhr" [sample_partregion_unnamed]))
    (sensor_init "DWD Pollen" 12 "grass")
  = ({| _name := "DWD Pollen"; _partregion_id := 12; _pollen_type := "grass";
        _state := Some 83;
        _attributes :=
          <[ATTR_NEXT_UPDATE := PD sample_next_update]>
            (<[ATTR_LAST_UPDATE := PD (sample_last_update 0)]>
               (<[ATTR_DESCRIPTION := PJ (JStr "medium to high level exposure")]> ∅)) |},
     [ErroneousResult KeyError], Raise KeyError).
Proof. vm_compute. reflexivity. Qed.

(** * Further properties of the code *)

(** ** The search for the sub-region *)

(** An entry of the list whose id is there and differs from the requested
    one: the loop of [__find_partregion] passes over it. *)
Lemma find_partregion_loop_skip (pre rest : list jsonval) (partregion_id : Z) :
  Forall (fun p => exists id, subscript p "partregion_id" = Return id
                              /\ py_eq_int id partregion_id = false) pre ->
  find_partregion_loop (pre ++ rest) partregion_id = find_partregion_loop rest partregion_id.
Proof.
  induction 1 as [|p pre (id & Hid & Hne) _ IH]; simpl; [reflexivity|].
  rewrite Hid. simpl. rewrite Hne. exact IH.
Qed.

(** X1. [__find_partregion] returns the first entry of the list whose id
    equals the requested one: the entries before it have other ids, and what
    follows it, a second entry with the same id included, is not looked
    at. *)
Theorem find_partregion_first_match (pre : list jsonval) (partregion : jsonval)
    (post : list jsonval) (partregion_id : Z) (id : jsonval) :
  Forall (fun p => exists id, subscript p "partregion_id" = Return id
                              /\ py_eq_int id partregion_id = false) pre ->
  subscript partregion "partregion_id" = Return id ->
  py_eq_int id partregion_id = true ->
  find_partregion (JList (pre ++ partregion :: post)) partregion_id = Return partregion.
Proof.
  intros Hpre Hid Heq. unfold find_partregion. simpl.
  rewrite (find_partregion_loop_skip pre _ _ Hpre). simpl.
  rewrite Hid. simpl. rewrite Heq. reflexivity.
Qed.

Lemma find_partregion_first_match_witness :
  find_partregion (JList ([sample_partregion_unnamed] ++ sample_partregion :: [sample_partregion]))
    11 = Return sample_partregion.
Proof.
  apply (find_partregion_first_match [sample_partregion_unnamed] sample_partregion
           [sample_partregion] 11 (JInt 11)).
  - constructor; [|constructor]. exists (JInt 12). split; reflexivity.
  - reflexivity.
  - reflexivity.
Defined.

(** X2. Whatever [__find_partregion] returns on a list is either None, and
    then every entry has an id different from the requested one, or an entry
    of the list whose id equals the requested one and which no entry with
    that id precedes. *)
Theorem find_partregion_returns (partregions : list jsonval) (partregion_id : Z)
    (found : jsonval) :
  find_partregion (JList partregions) partregion_id = Return found ->
  (found = JNull
   /\ Forall (fun p => exists id, subscript p "partregion_id" = Return id
                                  /\ py_eq_int id partregion_id = false) partregions)
  \/ (exists (pre post : list jsonval) (id : jsonval),
        partregions = pre ++ found :: post
        /\ Forall (fun p => exists id, subscript p "partregion_id" = Return id
                                       /\ py_eq_int id partregion_id = false) pre
        /\ subscript found "partregion_id" = Return id
        /\ py_eq_int id partregion_id = true).
Proof.
  unfold find_partregion. simpl.
  induction partregions as [|p rest IH]; simpl.
  - intros [= <-]. left. split; [reflexivity|constructor].
  - destruct (subscript p "partregion_id") as [id|e] eqn:Hid; simpl; [|discriminate].
    destruct (py_eq_int id partregion_id) eqn:Heq.
    + intros [= <-]. right. exists [], rest, id. repeat split; try assumption. constructor.
    + intros H. destruct (IH H) as [[-> Hall]|(pre & post & id' & -> & Hpre & Hid' & Heq')].
      * left. split; [reflexivity|]. constructor; [|exact Hall]. exists id. split; assumption.
      * right. exists (p :: pre), post, id'. repeat split; try assumption.
        constructor; [|exact Hpre]. exists id. split; assumption.
Qed.

Lemma find_partregion_returns_witness :
  (sample_partregion = JNull
   /\ Forall (fun p => exists id, subscript p "partregion_id" = Return id
                                  /\ py_eq_int id 11 = false)
        [sample_partregion_unnamed; sample_partregion])
  \/ (exists (pre post : list jsonval) (id : jsonval),
        [sample_partregion_unnamed; sample_partregion] = pre ++ sample_partregion :: post
        /\ Forall (fun p => exists id, subscript p "partregion_id" = Return id
                                       /\ py_eq_int id 11 = false) pre
        /\ subscript sample_partregion "partregion_id" = Return id
        /\ py_eq_int id 11 = true).
Proof.
  apply (find_partregion_returns [sample_partregion_unnamed; sample_partregion] 11
           sample_partregion).
  reflexivity.
Defined.

(** X3. An entry that has no "partregion_id" stops the search before a later
    entry can match: a dict without the key raises KeyError and an entry
    that is not a dict raises TypeError, provided the entries before it have
    other ids. *)
Theorem find_partregion_bad_entry (pre : list jsonval) (bad : jsonval)
    (post : list jsonval) (partregion_id : Z) :
  Forall (fun p => exists id, subscript p "partregion_id" = Return id
                              /\ py_eq_int id partregion_id = false) pre ->
  (forall d, bad = JDict d -> dict_find d "partregion_id" = None ->
     find_partregion (JList (pre ++ bad :: post)) partregion_id = Raise KeyError)
  /\ ((forall d, bad <> JDict d) ->
      find_partregion (JList (pre ++ bad :: post)) partregion_id = Raise TypeError).
Proof.
  intros Hpre. unfold find_partregion. simpl.
  rewrite (find_partregion_loop_skip pre _ _ Hpre). simpl. split.
  - intros d -> Hd. simpl. rewrite Hd. reflexivity.
  - intros Hbad. destruct bad; try reflexivity. destruct (Hbad d). reflexivity.
Qed.

Lemma find_partregion_bad_entry_witness :
  find_partregion
    (JList ([sample_partregion_unnamed] ++ JDict [("region_id", JInt 10)] :: [sample_partregion]))
    11 = Raise KeyError
  /\ find_partregion
       (JList ([sample_partregion_unnamed] ++ JStr "Pollen" :: [sample_partregion]))
       11 = Raise TypeError.
Proof.
  assert (Forall (fun p => exists id, subscript p "partregion_id" = Return id
                                      /\ py_eq_int id 11 = false)
            [sample_partregion_unnamed]) as Hpre.
  { constructor; [|constructor]. exists (JInt 12). split; reflexivity. }
  split.
  - apply (proj1 (find_partregion_bad_entry [sample_partregion_unnamed]
                    (JDict [("region_id", JInt 10)]) [sample_partregion] 11 Hpre)
             [("region_id", JInt 10)]); reflexivity.
  - apply (proj2 (find_partregion_bad_entry [sample_partregion_unnamed]
                    (JStr "Pollen") [sample_partregion] 11 Hpre)).
    intros d. discriminate.
Defined.

(** ** Levels, percentages and descriptions *)

(** X4. Every level [__calculate_level] returns is an integer from -1 to 6,
    whatever the pollen data, the category and the day. *)
Theorem calculate_level_bounds (pollen_list : jsonval) (category day : string) (level : Z) :
  calculate_level pollen_list category day = Return level -> -1 <= level <= 6.
Proof. apply calculate_level_range. Qed.

Lemma calculate_level_bounds_witness :
  calculate_level sample_tree_full "tree" "today" = Return 6 /\ -1 <= 6 <= 6.
Proof.
  split; [reflexivity|].
  apply (calculate_level_bounds sample_tree_full "tree" "today" 6). reflexivity.
Defined.

(** X5. The categories "ambrosia" and "grass" have one species each: their
    level is what the lookup of "Ambrosia" and of "Graeser" gives, exceptions
    included. Any category other than "ambrosia", "grass" and "tree" has no
    species, and its level is -1 without the pollen data being read. *)
Theorem calculate_level_categories (pollen_list : jsonval) (day : string) :
  calculate_level pollen_list "ambrosia" day = pollen_level pollen_list "Ambrosia" day
  /\ calculate_level pollen_list "grass" day = pollen_level pollen_list "Graeser" day
  /\ (forall category : string,
        category ∉ ["ambrosia"; "grass"; "tree"] ->
        calculate_level pollen_list category day = Return (-1)).
Proof.
  split; [|split].
  - unfold calculate_level. simpl.
    destruct (pollen_level pollen_list "Ambrosia" day); reflexivity.
  - unfold calculate_level. simpl.
    destruct (pollen_level pollen_list "Graeser" day); reflexivity.
  - intros category H.
    repeat (apply not_elem_of_cons in H as [? H]).
    unfold calculate_level, pollen_mapping. simpl.
    repeat (case_decide; [congruence|]). reflexivity.
Qed.

Lemma calculate_level_categories_witness :
  calculate_level JNull "weed" "today" = Return (-1).
Proof.
  apply (proj2 (proj2 (calculate_level_categories JNull "today")) "weed").
  repeat (apply not_elem_of_cons; split; [discriminate|]). apply not_elem_of_nil.
Defined.

(** X6. On the levels 0 to 6 the percentage is defined, lies between 0 and
    100 and grows strictly with the level. *)
Theorem percentage_increasing (level level' : Z) :
  0 <= level -> level < level' -> level' <= 6 ->
  exists p p' : Z,
    percentage level = Return p /\ percentage level' = Return p' /\ 0 <= p < p' /\ p' <= 100.
Proof.
  intros H0 Hlt H6.
  exists (round_half_even (100 * level) 6), (round_half_even (100 * level') 6).
  rewrite !percentage_exact by lia. split; [reflexivity|]. split; [reflexivity|].
  assert (level = 0 \/ level = 1 \/ level = 2 \/ level = 3 \/ level = 4 \/ level = 5)
    as Hl by lia.
  assert (level' = 1 \/ level' = 2 \/ level' = 3 \/ level' = 4 \/ level' = 5 \/ level' = 6)
    as Hl' by lia.
  destruct Hl as [->|[->|[->|[->|[->| ->]]]]];
    destruct Hl' as [->|[->|[->|[->|[->| ->]]]]]; try lia; vm_compute; repeat split; congruence.
Qed.

Lemma percentage_increasing_witness :
  exists p p' : Z,
    percentage 2 = Return p /\ percentage 5 = Return p' /\ 0 <= p < p' /\ p' <= 100.
Proof. apply (percentage_increasing 2 5); lia. Defined.

(** X7. The descriptions of the levels 0 to 6 are pairwise different and
    different from the description of every other integer: the description
    attribute tells which level in 0..6 was published. *)
Theorem get_description_injective (level level' : Z) :
  0 <= level <= 6 -> level <> level' -> get_description level <> get_description level'.
Proof.
  intros H.
  assert (level = 0 \/ level = 1 \/ level = 2 \/ level = 3
          \/ level = 4 \/ level = 5 \/ level = 6) as Hl by lia.
  unfold get_description, description_mapping.
  destruct Hl as [->|[->|[->|[->|[->|[->| ->]]]]]]; simpl; intros Hne;
    repeat (case_decide; [subst level'; first [congruence|discriminate]|]);
    discriminate.
Qed.

Lemma get_description_injective_witness :
  get_description 2 <> get_description 3 /\ get_description 6 <> get_description 7.
Proof. split; apply get_description_injective; lia. Defined.

(** ** The platform set-up *)

Lemma append_inj_l (prefix a b : string) : prefix +:+ a = prefix +:+ b -> a = b.
Proof.
  induction prefix as [|c prefix IH]; simpl; intros H; [exact H|].
  injection H as H. exact (IH H).
Qed.

Lemma setup_platform_loop_map (name : string) (partregion_id : Z)
    (pollen_types : list string) (added : list (list sensor)) :
  setup_platform_loop name partregion_id pollen_types added
  = added ++ map (fun pollen_type => [sensor_init name partregion_id pollen_type]) pollen_types.
Proof.
  revert added. induction pollen_types as [|pt rest IH]; intros added; simpl.
  - rewrite app_nil_r. reflexivity.
  - rewrite IH, <- app_assoc. reflexivity.
Qed.

(** X8. [setup_platform] calls [add_entities] once per configured category,
    in the configured order, each time with one sensor that has no state and
    no attributes yet; the names of the sensors it creates are pairwise
    different exactly when the configured categories are. *)
Theorem setup_platform_entities (cfg : config) :
  setup_platform cfg
  = map (fun pollen_type =>
           [ {| _name := CONF_NAME cfg; _partregion_id := CONF_PARTREGION_ID cfg;
                _pollen_type := pollen_type; _state := None; _attributes := ∅ |} ])
      (CONF_POLLEN_TYPES cfg)
  /\ (NoDup (map name (concat (setup_platform cfg))) <-> NoDup (CONF_POLLEN_TYPES cfg)).
Proof.
  unfold setup_platform. rewrite setup_platform_loop_map. simpl.
  split; [reflexivity|].
  assert (map name (concat (map (fun pollen_type =>
            [sensor_init (CONF_NAME cfg) (CONF_PARTREGION_ID cfg) pollen_type])
            (CONF_POLLEN_TYPES cfg)))
          = map (fun pollen_type =>
                   CONF_NAME cfg +:+ " " +:+ str_int (CONF_PARTREGION_ID cfg) +:+ " "
                   +:+ pollen_type) (CONF_POLLEN_TYPES cfg)) as ->.
  { induction (CONF_POLLEN_TYPES cfg) as [|pt rest IH]; simpl; [reflexivity|].
    f_equal. exact IH. }
  assert (Inj (=) (=) (fun pollen_type : string =>
            CONF_NAME cfg +:+ " " +:+ str_int (CONF_PARTREGION_ID cfg) +:+ " "
            +:+ pollen_type)) as Hinj.
  { intros a b H.
    apply append_inj_l in H. apply (append_inj_l " ") in H.
    apply append_inj_l in H. apply (append_inj_l " ") in H. exact H. }
  exact (NoDup_fmap _ (CONF_POLLEN_TYPES cfg)).
Qed.

(** ** The fetcher, whatever the library does *)

(** X9. [get_exposure] is decided by the first of the three library calls
    that raises, whichever call it is: a RequestException makes it log one
    fetch error and return None, a ValueError makes it log one parse error
    and return None, and any other exception goes on to the caller with
    nothing logged. When all three calls return, it returns the document and
    logs nothing. Nothing but the log is ever changed. *)
Theorem get_exposure_outcomes (fr : frame) :
  let handled (ex : exn) : frame * outcome jsonval :=
    match ex with
    | RequestException => (logged fr [ErrorFetching RESOURCE ex], Return JNull)
    | ValueError => (logged fr [ErrorParsing RESOURCE ex], Return JNull)
    | _ => (fr, Raise ex)
    end in
  (forall ex : exn, get_exposure (Raise ex) fr = handled ex)
  /\ (forall (r : response) (ex : exn),
        raise_for_status r = Raise ex -> get_exposure (Return r) fr = handled ex)
  /\ (forall (r : response) (ex : exn),
        raise_for_status r = Return tt -> json r = Raise ex ->
        get_exposure (Return r) fr = handled ex)
  /\ (forall (r : response) (doc : jsonval),
        raise_for_status r = Return tt -> json r = Return doc ->
        get_exposure (Return r) fr = (fr, Return doc)).
Proof.
  intros handled. subst handled.
  unfold get_exposure, try_except, logged, mbind, M_bind, lift. simpl.
  split; [|split; [|split]].
  - intros ex. destruct ex; reflexivity.
  - intros r ex ->. destruct ex; reflexivity.
  - intros r ex -> ->. destruct ex; reflexivity.
  - intros r doc -> ->. reflexivity.
Qed.

Lemma get_exposure_outcomes_witness :
  get_exposure (Return {| raise_for_status := Raise KeyError; json := Return JNull |})
    (sample_frame 3)
  = (sample_frame 3, Raise KeyError)
  /\ get_exposure (Return {| raise_for_status := Return tt; json := Raise TypeError |})
       (sample_frame 3)
     = (sample_frame 3, Raise TypeError)
  /\ get_exposure (Return {| raise_for_status := Raise ValueError; json := Return JNull |})
       (sample_frame 3)
     = (logged (sample_frame 3) [ErrorParsing RESOURCE ValueError], Return JNull)
  /\ get_exposure (ok_response sample_partregion) (sample_frame 3)
     = (sample_frame 3, Return sample_partregion).
Proof.
  pose proof (get_exposure_outcomes (sample_frame 3)) as (_ & Hstatus & Hbody & Hok).
  split; [|split; [|split]].
  - apply (Hstatus _ KeyError). reflexivity.
  - apply (Hbody _ TypeError); reflexivity.
  - apply (Hstatus _ ValueError). reflexivity.
  - apply Hok; reflexivity.
Defined.

(** ** How a refresh ends *)

Section RefreshEnds.

Variable strptime : string -> string -> option datetime.

(** The try block neither writes the sensor nor logs, and it leaves the
    exposure in one of four shapes. *)
Lemma update_try_end (today : datetime) (result : jsonval) (fr : frame) :
  exposure fr = exposure_empty ->
  self (update_try strptime today result fr).1 = self fr
  /\ log (update_try strptime today result fr).1 = log fr
  /\ try_end (exposure (update_try strptime today result fr).1)
       (update_try strptime today result fr).2.
Proof.
  intros Hempty. destruct fr as [s e lg]. simpl in Hempty. subst e.
  set (P := fun r : frame * outcome unit =>
              self r.1 = s /\ log r.1 = lg /\ try_end (exposure r.1) r.2).
  change (P (update_try strptime today result
               {| self := s; exposure := exposure_empty; log := lg |})).
  assert (forall ex, P ({| self := s; exposure := exposure_empty; log := lg |}, Raise ex))
    as Hraise.
  { intros ex. unfold P. simpl. repeat split. constructor. }
  unfold update_try, mbind at 1 2 3 4 5 6 7 8 9, M_bind, lift, get_self.
  destruct (sub_days today 1) as [yesterday|]; simpl; [|apply Hraise].
  destruct (sub_days yesterday 1) as [before|]; simpl; [|apply Hraise].
  destruct (subscript result "last_update") as [raw_lu|]; simpl; [|apply Hraise].
  destruct (datetime_strptime strptime raw_lu _) as [lu|]; simpl; [|apply Hraise].
  destruct (subscript result "next_update") as [raw_nu|]; simpl; [|apply Hraise].
  destruct (datetime_strptime strptime raw_nu _) as [nu|]; simpl; [|apply Hraise].
  destruct (subscript result "content") as [content|]; simpl; [|apply Hraise].
  destruct (find_partregion content (_partregion_id s)) as [partregion|]; simpl;
    [|apply Hraise].
  assert (forall level, -1 <= level <= 6 ->
            P (update_store lu nu partregion
                 {| self := s;
                    exposure := {| exp_level := Some level; exp_last_update := None;
                                   exp_next_update := None; exp_region_name := None;
                                   exp_partregion_name := None |};
                    log := lg |})) as Hstore.
  { intros level Hrange. unfold P, update_store, mbind, M_bind, lift. simpl.
    destruct (subscript partregion "region_name") as [rn|ex]; simpl;
      [|repeat split; constructor; exact Hrange].
    destruct (subscript partregion "partregion_name") as [pn|ex]; simpl;
      repeat split; constructor; exact Hrange. }
  assert (forall day,
            P ((_ ← update_level_for partregion day;
                update_store lu nu partregion)
                 {| self := s; exposure := exposure_empty; log := lg |})) as Hday.
  { intros day. unfold mbind at 1, M_bind at 1.
    unfold update_level_for, mbind at 1 2 3, M_bind, lift, get_self. simpl.
    destruct (subscript partregion "Pollen") as [pollen|ex]; simpl; [|apply Hraise].
    destruct (calculate_level pollen (_pollen_type s) day) as [level|ex] eqn:Hlevel; simpl;
      [|apply Hraise].
    apply Hstore. apply (calculate_level_range _ _ _ _ Hlevel). }
  destruct (date lu =? date today); [apply Hday|].
  destruct (date lu =? date yesterday); [apply Hday|].
  destruct (date lu =? date before); [apply Hday|].
  apply (Hstore (-1)). lia.
Qed.

(** The statements after the try block, on each of the four shapes of the
    exposure, for a sensor whose reading has been erased. *)
Lemma update_publish_empty (fr : frame) :
  exposure fr = exposure_empty -> update_publish fr = (fr, Return tt).
Proof.
  intros H. unfold update_publish, mbind, M_bind, get_local_exposure. simpl.
  rewrite H. reflexivity.
Qed.

Lemma update_publish_level (s : sensor) (lg : list log_record) (level : Z)
    (lu nu : datetime) :
  -1 <= level <= 6 ->
  let e := {| exp_level := Some level; exp_last_update := Some lu;
              exp_next_update := Some nu; exp_region_name := None;
              exp_partregion_name := None |} in
  update_publish {| self := erased s; exposure := e; log := lg |}
  = ({| self := published s level (attributes_level level lu nu); exposure := e; log := lg |},
     Raise KeyError).
Proof.
  intros Hrange e. unfold published.
  destruct (0 <=? level) eqn:Hsign.
  - unfold update_publish, mbind, M_bind, lift, get_local_exposure, exposure_item. simpl.
    rewrite Hsign. simpl. rewrite percentage_exact by lia. reflexivity.
  - unfold update_publish, mbind, M_bind, lift, get_local_exposure, exposure_item. simpl.
    rewrite Hsign. reflexivity.
Qed.

Lemma update_publish_region (s : sensor) (lg : list log_record) (level : Z)
    (lu nu : datetime) (rn : jsonval) :
  -1 <= level <= 6 ->
  let e := {| exp_level := Some level; exp_last_update := Some lu;
              exp_next_update := Some nu; exp_region_name := Some rn;
              exp_partregion_name := None |} in
  update_publish {| self := erased s; exposure := e; log := lg |}
  = ({| self := published s level (attributes_region level lu nu rn);
        exposure := e; log := lg |},
     Raise KeyError).
Proof.
  intros Hrange e. unfold published.
  destruct (0 <=? level) eqn:Hsign.
  - unfold update_publish, mbind, M_bind, lift, get_local_exposure, exposure_item. simpl.
    rewrite Hsign. simpl. rewrite percentage_exact by lia. reflexivity.
  - unfold update_publish, mbind, M_bind, lift, get_local_exposure, exposure_item. simpl.
    rewrite Hsign. reflexivity.
Qed.

Lemma update_publish_full (s : sensor) (lg : list log_record) (level : Z)
    (lu nu : datetime) (rn pn : jsonval) :
  -1 <= level <= 6 ->
  let e := {| exp_level := Some level; exp_last_update := Some lu;
              exp_next_update := Some nu; exp_region_name := Some rn;
              exp_partregion_name := Some pn |} in
  update_publish {| self := erased s; exposure := e; log := lg |}
  = ({| self := published s level (attributes_full level lu nu rn pn);
        exposure := e; log := lg |},
     Return tt).
Proof.
  intros Hrange e. unfold published.
  destruct (0 <=? level) eqn:Hsign.
  - unfold update_publish, mbind, M_bind, lift, get_local_exposure, exposure_item. simpl.
    rewrite Hsign. simpl. rewrite percentage_exact by lia. reflexivity.
  - unfold update_publish, mbind, M_bind, lift, get_local_exposure, exposure_item. simpl.
    rewrite Hsign. reflexivity.
Qed.

(** After the try block, whatever its exposure, the sensor ends in one of
    the four ways. *)
Lemma update_publish_end (s : sensor) (fr : frame) (r : outcome unit) :
  self fr = erased s ->
  try_end (exposure fr) r ->
  refresh_end s (self (update_publish fr).1) (update_publish fr).2.
Proof.
  intros Hself Htry. destruct fr as [s0 e lg]. simpl in *. subst s0.
  inversion Htry as [ex He|level lu nu ex Hrange He|level lu nu rn ex Hrange He
                     |level lu nu rn pn Hrange He]; subst.
  - rewrite update_publish_empty by reflexivity. constructor.
  - rewrite (update_publish_level s lg level lu nu Hrange). simpl.
    constructor. exact Hrange.
  - rewrite (update_publish_region s lg level lu nu rn Hrange). simpl.
    constructor. exact Hrange.
  - rewrite (update_publish_full s lg level lu nu rn pn Hrange). simpl.
    constructor. exact Hrange.
Qed.

(** The fetcher writes nothing but the log. *)
Lemma get_exposure_frame (requests_get : outcome response) (fr : frame) :
  self (get_exposure requests_get fr).1 = self fr
  /\ exposure (get_exposure requests_get fr).1 = exposure fr.
Proof.
  unfold get_exposure, try_except, mbind, M_bind, lift.
  destruct requests_get as [[status body]|ex]; simpl.
  - destruct status as [[]|ex]; simpl.
    + destruct body as [doc|ex]; simpl; [split; reflexivity|].
      destruct ex; split; reflexivity.
    + destruct ex; split; reflexivity.
  - destruct ex; split; reflexivity.
Qed.

(** Every call of [update] ends in one of the four ways. *)
Lemma update_end (today : datetime) (requests_get : outcome response) (s : sensor) :
  let r := update strptime today requests_get
             {| self := s; exposure := exposure_empty; log := [] |} in
  refresh_end s (self r.1) r.2.
Proof.
  set (P := fun r : frame * outcome unit => refresh_end s (self r.1) r.2).
  change (P (update strptime today requests_get
               {| self := s; exposure := exposure_empty; log := [] |})).
  change (update strptime today requests_get
            {| self := s; exposure := exposure_empty; log := [] |})
    with ((result ← get_exposure requests_get;
           _ ← set_exposure exposure_empty;
           _ ← (if truthy result then
                  try_except (update_try strptime today result)
                    (fun ex =>
                       match ex with
                       | KeyError => Some (logger_error (ErroneousResult ex))
                       | _ => None
                       end)
                else logger_error EmptyResult);
           update_publish) {| self := erased s; exposure := exposure_empty; log := [] |}).
  unfold mbind at 1, M_bind at 1.
  destruct (get_exposure_frame requests_get
              {| self := erased s; exposure := exposure_empty; log := [] |}) as [Hself Hexp].
  destruct (get_exposure requests_get _) as [[s1 e1 lg1] [result|ex]]; simpl in Hself, Hexp;
    subst s1 e1; [|unfold P; simpl; constructor].
  unfold mbind at 1, M_bind at 1, set_exposure at 1. simpl.
  unfold mbind at 1, M_bind at 1.
  destruct (truthy result).
  - unfold try_except.
    destruct (update_try_end today result
                {| self := erased s; exposure := exposure_empty; log := lg1 |} eq_refl)
      as (Hself & Hlog & Htry).
    destruct (update_try strptime today result _) as [[s2 e2 lg2] [[]|ex]];
      simpl in Hself, Hlog, Htry; subst s2 lg2.
    + apply (update_publish_end s _ (Return tt)); [reflexivity|exact Htry].
    + destruct ex; simpl; try (unfold P; simpl; constructor).
      apply (update_publish_end s _ (Raise KeyError)); [reflexivity|exact Htry].
  - simpl. rewrite update_publish_empty by reflexivity. unfold P. simpl. constructor.
Qed.

Lemma run_update_end (today : datetime) (requests_get : outcome response) (s : sensor) :
  refresh_end s (run_update strptime today requests_get s).1.1
    (run_update strptime today requests_get s).2.
Proof.
  pose proof (update_end today requests_get s) as H. unfold run_update.
  destruct (update strptime today requests_get _) as [fr r]. exact H.
Qed.

Lemma published_state_range (s : sensor) (level : Z) (attributes : gmap string pyval) :
  -1 <= level <= 6 ->
  match _state (published s level attributes) with
  | None => level = -1
  | Some p => 0 <= level /\ p = round_half_even (100 * level) 6
              /\ p ∈ [0; 17; 33; 50; 67; 83; 100]
  end.
Proof.
  intros H.
  assert (level = -1 \/ level = 0 \/ level = 1 \/ level = 2 \/ level = 3
          \/ level = 4 \/ level = 5 \/ level = 6) as Hl by lia.
  destruct Hl as [->|[->|[->|[->|[->|[->|[->| ->]]]]]]]; simpl;
    try reflexivity; (split; [lia|]); (split; [reflexivity|]);
    vm_compute round_half_even; repeat (first [solve [left]|right]).
Qed.

(** X10. Every call of [update], whatever the fetch returns, ends in one of
    three ways: with the reading erased (state None, no attributes); raising
    KeyError after it has published the state of a level together with only
    the first three or four attributes; or returning with the state of a
    level and all six attributes. The level is always from -1 to 6. *)
Theorem update_ends (today : datetime) (requests_get : outcome response) (s : sensor) :
  let s' := (run_update strptime today requests_get s).1.1 in
  let r := (run_update strptime today requests_get s).2 in
  s' = erased s
  \/ (exists (level : Z) (last_update next_update : datetime),
        -1 <= level <= 6 /\ r = Raise KeyError
        /\ (s' = published s level (attributes_level level last_update next_update)
            \/ exists region_name,
                 s' = published s level
                        (attributes_region level last_update next_update region_name)))
  \/ (exists (level : Z) (last_update next_update : datetime)
             (region_name partregion_name : jsonval),
        -1 <= level <= 6 /\ r = Return tt
        /\ s' = published s level
                  (attributes_full level last_update next_update region_name
                     partregion_name)).
Proof.
  intros s' r. subst s' r.
  destruct (run_update_end today requests_get s)
    as [r|level lu nu Hrange|level lu nu rn Hrange|level lu nu rn pn Hrange].
  - left. reflexivity.
  - right. left. exists level, lu, nu. repeat split; try assumption; try lia. left. reflexivity.
  - right. left. exists level, lu, nu. repeat split; try assumption; try lia.
    right. exists rn. reflexivity.
  - right. right. exists level, lu, nu, rn, pn. repeat split; try assumption; lia.
Qed.

(** X11. After every call of [update] the state is None or one of the seven
    percentages 0, 17, 33, 50, 67, 83 and 100. *)
Theorem update_state_range (today : datetime) (requests_get : outcome response)
    (s : sensor) :
  match _state (run_update strptime today requests_get s).1.1 with
  | None => True
  | Some p => p ∈ [0; 17; 33; 50; 67; 83; 100]
  end.
Proof.
  destruct (run_update_end today requests_get s)
    as [r|level lu nu Hrange|level lu nu rn Hrange|level lu nu rn pn Hrange];
    [exact I|..];
    match goal with
    | |- context [published s level ?a] =>
        pose proof (published_state_range s level a Hrange) as H;
        destruct (_state (published s level a)); [apply H|exact I]
    end.
Qed.

(** X12. When a call of [update] returns normally, the sensor holds either
    nothing (state None and no attributes) or a whole snapshot: exactly the
    six attributes. *)
Theorem update_returns_whole (today : datetime) (requests_get : outcome response)
    (s : sensor) :
  (run_update strptime today requests_get s).2 = Return tt ->
  let s' := (run_update strptime today requests_get s).1.1 in
  (_state s' = None /\ _attributes s' = ∅)
  \/ (Forall (fun key => is_Some (_attributes s' !! key))
        [ATTR_DESCRIPTION; ATTR_LAST_UPDATE; ATTR_NEXT_UPDATE; ATTR_REGION_NAME;
         ATTR_PARTREGION_NAME; ATTR_ATTRIBUTION]
      /\ size (_attributes s') = 6%nat).
Proof.
  intros Hr s'. subst s'.
  destruct (run_update_end today requests_get s)
    as [r|level lu nu Hrange|level lu nu rn Hrange|level lu nu rn pn Hrange];
    try discriminate Hr.
  - left. split; reflexivity.
  - right. split; [|reflexivity].
    repeat (constructor; [eexists; reflexivity|]). constructor.
Qed.

(** X13. The state and the description agree after every call of [update]:
    a numeric state is the percentage of a level from 0 to 6 whose
    description is published with it, and attributes published without a
    state carry the description "unknown level of exposure". *)
Theorem update_state_description (today : datetime) (requests_get : outcome response)
    (s : sensor) :
  let s' := (run_update strptime today requests_get s).1.1 in
  (forall p : Z,
      _state s' = Some p ->
      exists level : Z,
        0 <= level <= 6 /\ p = round_half_even (100 * level) 6
        /\ _attributes s' !! ATTR_DESCRIPTION = Some (PJ (JStr (get_description level))))
  /\ (_state s' = None -> _attributes s' <> ∅ ->
      _attributes s' !! ATTR_DESCRIPTION = Some (PJ (JStr "unknown level of exposure"))).
Proof.
  intros s'. subst s'.
  destruct (run_update_end today requests_get s)
    as [r|level lu nu Hrange|level lu nu rn Hrange|level lu nu rn pn Hrange].
  - split; [discriminate|]. intros _ H. destruct H. reflexivity.
  - pose proof (published_state_range s level (attributes_level level lu nu) Hrange) as H.
    split.
    + intros p Hp. rewrite Hp in H. destruct H as (H0 & -> & _).
      exists level. split; [lia|]. split; reflexivity.
    + intros Hnone _. rewrite Hnone in H. subst level. reflexivity.
  - pose proof (published_state_range s level (attributes_region level lu nu rn) Hrange)
      as H.
    split.
    + intros p Hp. rewrite Hp in H. destruct H as (H0 & -> & _).
      exists level. split; [lia|]. split; reflexivity.
    + intros Hnone _. rewrite Hnone in H. subst level. reflexivity.
  - pose proof (published_state_range s level (attributes_full level lu nu rn pn) Hrange)
      as H.
    split.
    + intros p Hp. rewrite Hp in H. destruct H as (H0 & -> & _).
      exists level. split; [lia|]. split; reflexivity.
    + intros Hnone _. rewrite Hnone in H. subst level. reflexivity.
Qed.

(** X14. No call of [update] changes the name, the sub-region or the
    category of the sensor. *)
Theorem update_keeps_configuration (today : datetime) (requests_get : outcome response)
    (s : sensor) :
  let s' := (run_update strptime today requests_get s).1.1 in
  _name s' = _name s /\ _partregion_id s' = _partregion_id s
  /\ _pollen_type s' = _pollen_type s.
Proof.
  intros s'. subst s'. unfold run_update.
  pose proof (keeps_config_update strptime today requests_get
                {| self := s; exposure := exposure_empty; log := [] |}) as H.
  destruct (update strptime today requests_get _) as [fr r]. simpl in *.
  unfold erased in H. injection H as H1 H2 H3. auto.
Qed.

(** *** Documents that give no reading *)

(** What [update] does with a document that is true once the try block has
    been left by an exception with the exposure still empty: a KeyError is
    logged and the call returns, any other exception goes on to the caller. *)
Lemma update_after_raise (today : datetime) (result : jsonval) (s : sensor) (ex : exn) :
  truthy result = true ->
  update_try strptime today result
    {| self := erased s; exposure := exposure_empty; log := [] |}
  = ({| self := erased s; exposure := exposure_empty; log := [] |}, Raise ex) ->
  run_update strptime today (ok_response result) s
  = match ex with
    | KeyError => (erased s, [ErroneousResult KeyError], Return tt)
    | _ => (erased s, [], Raise ex)
    end.
Proof.
  intros Htruthy Htry. unfold run_update. rewrite update_fetched, Htruthy.
  unfold mbind at 1, M_bind at 1, try_except. rewrite Htry.
  destruct ex; reflexivity.
Qed.

(** The try block is left at the first step that raises. *)
Lemma update_try_raise (today : datetime) (result : jsonval) (fr : frame) (ex : exn)
    (raw_last_update raw_next_update : jsonval) (last_update next_update : datetime) :
  3 <= ordinal today <= MAXORDINAL ->
  subscript result "last_update" = Raise ex
  \/ (subscript result "last_update" = Return raw_last_update
      /\ (datetime_strptime strptime raw_last_update FEED_FORMAT = Raise ex
          \/ (datetime_strptime strptime raw_last_update FEED_FORMAT = Return last_update
              /\ (subscript result "next_update" = Raise ex
                  \/ (subscript result "next_update" = Return raw_next_update
                      /\ (datetime_strptime strptime raw_next_update FEED_FORMAT = Raise ex
                          \/ (datetime_strptime strptime raw_next_update FEED_FORMAT
                              = Return next_update
                              /\ subscript result "content" = Raise ex))))))) ->
  update_try strptime today result fr = (fr, Raise ex).
Proof.
  intros Htoday H.
  destruct (sub_days_return today 1) as (yesterday & Hy & Hdy); [lia|].
  destruct (sub_days_return yesterday 1) as (before & Hb & Hdb).
  { unfold date in Hdy. lia. }
  unfold update_try, mbind at 1 2 3 4 5 6 7 8 9, M_bind, lift, get_self.
  fold FEED_FORMAT. rewrite Hy, Hb.
  destruct H as [H|(H1 & [H|(H2 & [H|(H3 & [H|(H4 & H)])])])].
  - rewrite H. reflexivity.
  - rewrite H1, H. reflexivity.
  - rewrite H1, H2, H. reflexivity.
  - rewrite H1, H2, H3, H. reflexivity.
  - rewrite H1, H2, H3, H4, H. reflexivity.
Qed.

Lemma update_level_for_raise (partregion : jsonval) (day : string) (fr : frame) (ex : exn) :
  (pollen ← subscript partregion "Pollen";
   calculate_level pollen (_pollen_type (self fr)) day) = Raise ex ->
  update_level_for partregion day fr = (fr, Raise ex).
Proof.
  unfold update_level_for, mbind, M_bind, outcome_bind, lift, get_self.
  destruct (subscript partregion "Pollen") as [pollen|ex']; [|intros [= <-]; reflexivity].
  destruct (calculate_level pollen (_pollen_type (self fr)) day); [discriminate|].
  intros [= <-]. reflexivity.
Qed.

(** X15. Without a document there is no reading: when the fetch fails, or
    when the fetched document is false (None, false, 0, an empty string, list
    or dict), [update] leaves the state None and the attributes empty, logs
    that the result is empty (after the record of the fetcher, if the fetch
    failed) and returns. *)
Theorem update_without_document (today : datetime) (s : sensor) :
  run_update strptime today (Raise RequestException) s
  = (erased s, [ErrorFetching RESOURCE RequestException; EmptyResult], Return tt)
  /\ (forall r : response,
        raise_for_status r = Raise RequestException ->
        run_update strptime today (Return r) s
        = (erased s, [ErrorFetching RESOURCE RequestException; EmptyResult], Return tt))
  /\ (forall r : response,
        raise_for_status r = Return tt ->
        json r = Raise ValueError ->
        run_update strptime today (Return r) s
        = (erased s, [ErrorParsing RESOURCE ValueError; EmptyResult], Return tt))
  /\ (forall doc : jsonval,
        truthy doc = false ->
        run_update strptime today (ok_response doc) s
        = (erased s, [EmptyResult], Return tt)).
Proof.
  split; [reflexivity|]. split; [|split].
  - intros [status body] H. simpl in H. subst status. reflexivity.
  - intros [status body] H1 H2. simpl in H1, H2. subst status body. reflexivity.
  - intros doc H. unfold run_update. rewrite update_fetched, H. reflexivity.
Qed.

(** X16. A document that is a non-empty dict but lacks "last_update",
    "next_update" or "content" gives no reading: the KeyError is caught
    before anything is stored, one record is logged, the state stays None,
    the attributes stay empty and [update] returns. (The timestamps that
    precede the missing key have to parse.) *)
Theorem update_missing_key (today : datetime) (result : jsonval) (s : sensor)
    (raw_last_update raw_next_update : jsonval) (last_update next_update : datetime) :
  3 <= ordinal today <= MAXORDINAL ->
  truthy result = true ->
  subscript result "last_update" = Raise KeyError
  \/ (subscript result "last_update" = Return raw_last_update
      /\ datetime_strptime strptime raw_last_update FEED_FORMAT = Return last_update
      /\ (subscript result "next_update" = Raise KeyError
          \/ (subscript result "next_update" = Return raw_next_update
              /\ datetime_strptime strptime raw_next_update FEED_FORMAT = Return next_update
              /\ subscript result "content" = Raise KeyError))) ->
  run_update strptime today (ok_response result) s
  = (erased s, [ErroneousResult KeyError], Return tt).
Proof.
  intros Htoday Htruthy H.
  apply (update_after_raise today result s KeyError Htruthy).
  apply (update_try_raise today result _ KeyError raw_last_update raw_next_update
           last_update next_update Htoday).
  destruct H as [H|(H1 & H2 & [H|(H3 & H4 & H)])]; [tauto|..].
  - right. split; [exact H1|]. right. split; [exact H2|]. left. exact H.
  - right. split; [exact H1|]. right. split; [exact H2|]. right. split; [exact H3|].
    right. split; [exact H4|exact H].
Qed.

(** X17. A document that is current (at most two days old) and holds the
    requested sub-region gives no reading when the pollen data of the
    sub-region is incomplete: if "Pollen", a constituent species of the
    category or the day-key of such a species is missing, the KeyError is
    caught, one record is logged, the state stays None, the attributes stay
    empty and [update] returns. *)
Theorem update_missing_pollen (today : datetime) (result : jsonval) (s : sensor)
    (raw_last_update raw_next_update : jsonval) (last_update next_update : datetime)
    (content partregion : jsonval) (day : string) :
  3 <= ordinal today <= MAXORDINAL ->
  subscript result "last_update" = Return raw_last_update ->
  datetime_strptime strptime raw_last_update FEED_FORMAT = Return last_update ->
  subscript result "next_update" = Return raw_next_update ->
  datetime_strptime strptime raw_next_update FEED_FORMAT = Return next_update ->
  subscript result "content" = Return content ->
  find_partregion content (_partregion_id s) = Return partregion ->
  spec_day_key (date today - date last_update) = Some day ->
  (pollen ← subscript partregion "Pollen";
   calculate_level pollen (_pollen_type s) day) = Raise KeyError ->
  run_update strptime today (ok_response result) s
  = (erased s, [ErroneousResult KeyError], Return tt).
Proof.
  intros Htoday Hraw_lu Hlu Hraw_nu Hnu Hcontent Hfind Hday Hlevel.
  apply (update_after_raise today result s KeyError (subscript_truthy _ _ _ Hraw_lu)).
  rewrite (update_try_steps strptime today result
             {| self := erased s; exposure := exposure_empty; log := [] |} _ _ _ _ _ _
             Htoday Hraw_lu Hlu Hraw_nu Hnu Hcontent Hfind).
  rewrite Hday. unfold mbind at 1, M_bind at 1.
  rewrite (update_level_for_raise partregion day
             {| self := erased s; exposure := exposure_empty; log := [] |} KeyError Hlevel).
  reflexivity.
Qed.

(** X18. Only KeyError is caught. A document that is true but not a dict
    makes [update] raise TypeError, and a "last_update" that the timestamp
    format does not match makes it raise ValueError; in both cases nothing is
    logged and the sensor is left with the state None and no attributes. *)
Theorem update_raises (today : datetime) (result : jsonval) (s : sensor) :
  3 <= ordinal today <= MAXORDINAL ->
  (truthy result = true -> (forall d, result <> JDict d) ->
   run_update strptime today (ok_response result) s = (erased s, [], Raise TypeError))
  /\ (forall timestamp : string,
        subscript result "last_update" = Return (JStr timestamp) ->
        strptime timestamp FEED_FORMAT = None ->
        run_update strptime today (ok_response result) s = (erased s, [], Raise ValueError)).
Proof.
  intros Htoday. split.
  - intros Htruthy Hdict.
    apply (update_after_raise today result s TypeError Htruthy).
    apply (update_try_raise today result _ TypeError JNull JNull today today Htoday).
    left. destruct result; try reflexivity. destruct (Hdict d). reflexivity.
  - intros timestamp Hraw Hparse.
    apply (update_after_raise today result s ValueError (subscript_truthy _ _ _ Hraw)).
    apply (update_try_raise today result _ ValueError (JStr timestamp) JNull today today
             Htoday).
    right. split; [exact Hraw|]. left. simpl. rewrite Hparse. reflexivity.
Qed.

(** X19. A current, complete document gives a whole reading: when the
    document is at most two days old, the requested sub-region is found with
    both names and the level of the category is calculated for the selected
    day, [update] returns without logging, with the state of that level (None
    for -1) and the six attributes, the description being that of the
    level. *)
Theorem update_fresh (today : datetime) (result : jsonval) (s : sensor)
    (raw_last_update raw_next_update : jsonval) (last_update next_update : datetime)
    (content partregion pollen region_name partregion_name : jsonval) (day : string)
    (level : Z) :
  3 <= ordinal today <= MAXORDINAL ->
  subscript result "last_update" = Return raw_last_update ->
  datetime_strptime strptime raw_last_update FEED_FORMAT = Return last_update ->
  subscript result "next_update" = Return raw_next_update ->
  datetime_strptime strptime raw_next_update FEED_FORMAT = Return next_update ->
  subscript result "content" = Return content ->
  find_partregion content (_partregion_id s) = Return partregion ->
  spec_day_key (date today - date last_update) = Some day ->
  subscript partregion "Pollen" = Return pollen ->
  calculate_level pollen (_pollen_type s) day = Return level ->
  subscript partregion "region_name" = Return region_name ->
  subscript partregion "partregion_name" = Return partregion_name ->
  run_update strptime today (ok_response result) s
  = (published s level
       (attributes_full level last_update next_update region_name partregion_name),
     [], Return tt).
Proof.
  intros Htoday Hraw_lu Hlu Hraw_nu Hnu Hcontent Hfind Hday Hpollen Hlevel Hrn Hpn.
  pose proof (calculate_level_range _ _ _ _ Hlevel) as Hrange.
  unfold run_update. rewrite update_fetched.
  rewrite (subscript_truthy _ _ _ Hraw_lu).
  unfold mbind at 1, M_bind at 1, try_except.
  rewrite (update_try_steps strptime today result
             {| self := erased s; exposure := exposure_empty; log := [] |} _ _ _ _ _ _
             Htoday Hraw_lu Hlu Hraw_nu Hnu Hcontent Hfind).
  rewrite Hday.
  unfold update_level_for, update_store, mbind at 1 2 3 4 5 6 7 8 9, M_bind, lift, get_self.
  simpl. rewrite Hpollen. simpl. rewrite Hlevel. simpl. rewrite Hrn. simpl. rewrite Hpn.
  simpl.
  pose proof (update_publish_full s [] level last_update next_update region_name
                partregion_name Hrange) as Hpub.
  cbv zeta in Hpub. rewrite Hpub. reflexivity.
Qed.

End RefreshEnds.

(** ** The ends of a refresh on the sample documents *)

Lemma update_returns_whole_witness :
  let s' := (run_update strptime_feed sample_today
               (ok_response (sample_document "2024-05-01 11:00 Uhr" [sample_partregion]))
               (sensor_init "DWD Pollen" 11 "grass")).1.1 in
  (_state s' = None /\ _attributes s' = ∅)
  \/ (Forall (fun key => is_Some (_attributes s' !! key))
        [ATTR_DESCRIPTION; ATTR_LAST_UPDATE; ATTR_NEXT_UPDATE; ATTR_REGION_NAME;
         ATTR_PARTREGION_NAME; ATTR_ATTRIBUTION]
      /\ size (_attributes s') = 6%nat).
Proof.
  apply (update_returns_whole strptime_feed sample_today
           (ok_response (sample_document "2024-05-01 11:00 Uhr" [sample_partregion]))
           (sensor_init "DWD Pollen" 11 "grass")).
  vm_compute. reflexivity.
Defined.

Lemma update_state_description_witness :
  let s' := (run_update strptime_feed sample_today
               (ok_response (sample_document "2024-05-02 11:00 Uhr" [sample_partregion]))
               (sensor_init "DWD Pollen" 11 "grass")).1.1 in
  exists level : Z,
    0 <= level <= 6 /\ 83 = round_half_even (100 * level) 6
    /\ _attributes s' !! ATTR_DESCRIPTION = Some (PJ (JStr (get_description level))).
Proof.
  apply (proj1 (update_state_description strptime_feed sample_today
                  (ok_response (sample_document "2024-05-02 11:00 Uhr" [sample_partregion]))
                  (sensor_init "DWD Pollen" 11 "grass")) 83).
  vm_compute. reflexivity.
Defined.

Lemma update_without_document_witness :
  run_update strptime_feed sample_today (Return status_error_response)
    (sensor_init "DWD Pollen" 11 "grass")
  = (sensor_init "DWD Pollen" 11 "grass",
     [ErrorFetching RESOURCE RequestException; EmptyResult], Return tt)
  /\ run_update strptime_feed sample_today (Return invalid_body_response)
       (sensor_init "DWD Pollen" 11 "grass")
     = (sensor_init "DWD Pollen" 11 "grass",
        [ErrorParsing RESOURCE ValueError; EmptyResult], Return tt)
  /\ run_update strptime_feed sample_today (ok_response (JDict []))
       (sensor_init "DWD Pollen" 11 "grass")
     = (sensor_init "DWD Pollen" 11 "grass", [EmptyResult], Return tt).
Proof.
  pose proof (update_without_document strptime_feed sample_today
                (sensor_init "DWD Pollen" 11 "grass")) as (_ & Hstatus & Hbody & Hfalse).
  split; [|split].
  - apply Hstatus. reflexivity.
  - apply Hbody; reflexivity.
  - apply Hfalse. reflexivity.
Defined.

Lemma update_missing_key_witness :
  run_update strptime_feed sample_today (ok_response sample_document_truncated)
    (sensor_init "DWD Pollen" 11 "grass")
  = (sensor_init "DWD Pollen" 11 "grass", [ErroneousResult KeyError], Return tt).
Proof.
  apply (update_missing_key strptime_feed sample_today sample_document_truncated
           (sensor_init "DWD Pollen" 11 "grass")
           (JStr "2024-05-02 11:00 Uhr") JNull (sample_last_update 0) sample_next_update).
  - unfold MAXORDINAL. simpl. lia.
  - reflexivity.
  - right. split; [reflexivity|]. split; [reflexivity|]. left. reflexivity.
Defined.

Lemma update_missing_pollen_witness :
  run_update strptime_feed sample_today
    (ok_response (sample_document "2024-05-02 11:00 Uhr" [sample_partregion]))
    (sensor_init "DWD Pollen" 11 "tree")
  = (sensor_init "DWD Pollen" 11 "tree", [ErroneousResult KeyError], Return tt).
Proof.
  apply (update_missing_pollen strptime_feed sample_today
           (sample_document "2024-05-02 11:00 Uhr" [sample_partregion])
           (sensor_init "DWD Pollen" 11 "tree")
           (JStr "2024-05-02 11:00 Uhr") (JStr "2024-05-03 11:00 Uhr")
           (sample_last_update 0) sample_next_update
           (JList [sample_partregion]) sample_partregion "today");
    [unfold MAXORDINAL; simpl; lia|reflexivity..].
Defined.

Lemma update_raises_witness :
  run_update strptime_feed sample_today (ok_response (JList [JInt 1]))
    (sensor_init "DWD Pollen" 11 "grass")
  = (sensor_init "DWD Pollen" 11 "grass", [], Raise TypeError)
  /\ run_update strptime_feed sample_today (ok_response sample_document_malformed)
       (sensor_init "DWD Pollen" 11 "grass")
     = (sensor_init "DWD Pollen" 11 "grass", [], Raise ValueError).
Proof.
  assert (3 <= ordinal sample_today <= MAXORDINAL) as Htoday.
  { unfold MAXORDINAL. simpl. lia. }
  split.
  - apply (proj1 (update_raises strptime_feed sample_today (JList [JInt 1])
                    (sensor_init "DWD Pollen" 11 "grass") Htoday)).
    + reflexivity.
    + intros d. discriminate.
  - apply (proj2 (update_raises strptime_feed sample_today sample_document_malformed
                    (sensor_init "DWD Pollen" 11 "grass") Htoday) "02.05.2024 11:00").
    + reflexivity.
    + reflexivity.
Defined.

Lemma update_fresh_witness :
  run_update strptime_feed sample_today
    (ok_response (sample_document "2024-05-01 11:00 Uhr" [sample_partregion]))
    (sensor_init "DWD Pollen" 11 "grass")
  = ({| _name := "DWD Pollen"; _partregion_id := 11; _pollen_type := "grass";
        _state := Some 33;
        _attributes :=
          attributes_full 2 (sample_last_update 1) sample_next_update
            (JStr "Schleswig-Holstein und Hamburg") (JStr "Inseln und Marschen") |},
     [], Return tt).
Proof.
  apply (update_fresh strptime_feed sample_today
           (sample_document "2024-05-01 11:00 Uhr" [sample_partregion])
           (sensor_init "DWD Pollen" 11 "grass")
           (JStr "2024-05-01 11:00 Uhr") (JStr "2024-05-03 11:00 Uhr")
           (sample_last_update 1) sample_next_update
           (JList [sample_partregion]) sample_partregion sample_pollen
           (JStr "Schleswig-Holstein und Hamburg") (JStr "Inseln und Marschen")
           "tomorrow" 2);
    [unfold MAXORDINAL; simpl; lia|reflexivity..].
Defined.
